(** * idena-go, package blockchain: the block pipeline of [blockchain.go]

    A shallow embedding of [blockchain/blockchain.go]: block construction
    ([GenerateGenesis], [GenerateEmptyBlock], [ProposeBlock]), block admission
    ([AddBlock], [ValidateProposedBlock], [validateBlockParentHash]) and the
    state transition ([applyBlock], [applyAndValidateBlockState],
    [processTxs]).

    Go values are modelled as follows.
    - [uint64] (heights, nonces): [Z] with the wrap-around of Go's [+] and [-]
      written out ([u64]).
    - [*big.Int] (balances, amounts, fees): [Z].
    - [[]byte]: a list of byte values; [common.Hash], [types.Seed]: the list of
      their 32 bytes.
    - [error]: the inductive [error]; a function returning [error] returns
      [res unit], [Ok tt] standing for [nil].  A Go run-time panic (a nil
      pointer dereferenced) is the third outcome, [Panic].
    - the state handle [*state.StateDB] is mutated in place by the Go code;
      here it is threaded through every call, and returned also when the call
      fails, since the mutations made before the failure stay in the handle.

    The packages [types], [state], [crypto], [vrf], [mempool], [appstate] and
    [validation] are imported by [blockchain.go] and are not among the
    sources.  Their data ([types], [state]) is modelled from the
    specification, each such definition saying so; their hash functions,
    codecs and checks are the fields of the class [Collaborators], over which
    every definition and theorem is generic.

    Of [getSortition] the threshold test, a comparison in floating point, is a
    parameter.  Not modelled: [WriteFinalConsensus], which only stores what it
    is given. *)

From Stdlib Require Import ZArith Lia List.
From stdpp Require Import base decidable option list gmap.

Local Open Scope Z_scope.

(** ** Basic values *)

Abbreviation bytes := (list Z) (only parsing).
Abbreviation Hash := (list Z) (only parsing).
Abbreviation Address := Z (only parsing).

(** [len] of a [[32]byte] array, a constant of the type. *)
Definition HashLength : Z := 32.

(** [common.Hash{}], the zero value of the array. *)
Definition emptyHash : Hash := replicate 32 0.

(** Go's [uint64] arithmetic wraps modulo 2^64. *)
Definition u64 (z : Z) : Z := z mod 2 ^ 64.

(** What a Go function returning [(T, error)] or [error] can do. *)
Inductive error : Type :=
  | ErrInvalidTxNonce (expected actual : Z)
  | ErrNotEnoughFunds
  | ErrWrongStateRoot (actual blockroot : Hash)
  | ErrSeedInvalid
  | ErrTxHashInvalid
  | ErrHeightInvalid
  | ErrParentHashInvalid
  | ErrHashesNotEqual
  | ErrCollaborator (code : Z).

Inductive res (A : Type) : Type :=
  | Ok (a : A)
  | Err (e : error)
  | Panic.

Arguments Ok {A} a.
Arguments Err {A} e.
Arguments Panic {A}.

#[global] Instance error_eq_dec : EqDecision error.
Proof. solve_decision. Defined.

(** ** Transactions and blocks *)

(** Modelled from the spec: [types.TxType] (package [types] is not among the
    sources); section 3 of the specification: the type of a transaction is one
    of Send, SendInvite and Approving. *)
Inductive TxType : Type := SendTx | SendInviteTx | ApprovingTx.

(** Modelled from the spec: [types.Transaction]; section 3 of the
    specification gives its fields, the recipient being optional (a pointer in
    Go) and the sender being recovered from the signature ([Sender] below).
    [AccountNonce] is a [uint64], [Amount] a [*big.Int]. *)
Record Transaction : Type := {
  AccountNonce : Z;
  Type_ : TxType;
  To : option Address;
  Amount : Z;
  Signature : bytes
}.

(** Modelled from the spec: [types.ProposedHeader], with the fields section 3 of
    the specification lists and [blockchain.go] sets. *)
Record ProposedHeader : Type := {
  ParentHash : Hash;
  Height : Z;
  Time : Z;
  ProposerPubKey : bytes;
  TxHash : Hash;
  Coinbase : Address;
  Root : Hash
}.

(** Modelled from the spec: [types.EmptyBlockHeader]. *)
Record EmptyBlockHeader : Type := {
  EParentHash : Hash;
  EHeight : Z;
  ERoot : Hash
}.

(** Modelled from the spec: [types.Header], the tagged union of section 3 of the
    specification (exactly one of the two shapes); in Go a struct of two
    pointers, [ProposedHeader] and [EmptyBlockHeader], of which one is set. *)
Inductive Header : Type :=
  | Proposed (h : ProposedHeader)
  | Empty (h : EmptyBlockHeader).

(** Modelled from the spec: [types.Body]. *)
Record Body : Type := {
  Transactions : list Transaction;
  BlockSeed : Hash;
  SeedProof : bytes
}.

(** Modelled from the spec: [types.Block]. *)
Record Block : Type := {
  header : Header;
  body : Body
}.

(** Modelled from the spec: the accessors of [types.Block] and [types.Header]
    that [blockchain.go] calls; each reads the field of the header shape the
    block has. *)
Definition IsEmpty (b : Block) : bool :=
  match header b with Empty _ => true | Proposed _ => false end.

Definition Block_Height (b : Block) : Z :=
  match header b with Empty h => EHeight h | Proposed h => Height h end.

Definition Header_ParentHash (h : Header) : Hash :=
  match h with Empty h => EParentHash h | Proposed h => ParentHash h end.

Definition Block_Root (b : Block) : Hash :=
  match header b with Empty h => ERoot h | Proposed h => Root h end.

Definition Block_Seed (b : Block) : Hash := BlockSeed (body b).

(** ** Account state *)

(** Modelled from the spec: an entry of the account state (package [state] is
    not among the sources); section 3 of the specification: the account state
    maps an address to balance, nonce and identity object.  Of the identity
    object [blockchain.go] only calls [Approve]. *)
Record Account : Type := {
  Balance : Z;
  Nonce : Z;
  Approved : bool
}.

Definition emptyAccount : Account :=
  {| Balance := 0; Nonce := 0; Approved := false |}.

(** Modelled from the spec: [state.StateDB].  Sections 3 and 4.2 of the
    specification: a handle takes speculative writes, [Precommit] fixes a root
    without making it durable, [Commit] makes it durable and advances a version
    counter, and a rollback discards all partial mutations of the handle.  A
    handle is therefore three maps, the accounts as last committed
    ([durable]), as last fixed by [Precommit] or [Commit] ([fixed], what [Root]
    hashes) and as the getters see them ([live]), and the version. *)
Record StateDB : Type := {
  durable : gmap Z Account;
  fixed : gmap Z Account;
  live : gmap Z Account;
  version : Z
}.

(** ** The collaborators of the chain *)

(** Modelled from the spec: the validators cache of [appstate], section 6 of
    the specification; [blockchain.go] only triggers its refresh. *)
Record ValidatorsCache : Type := {
  refreshed : list (list Transaction)  (* the arguments of RefreshIfUpdated, latest first *)
}.

(** Modelled from the spec: [appstate.AppState]. *)
Record AppState : Type := {
  State : StateDB;
  Validators : ValidatorsCache
}.

(** Modelled from the spec: [mempool.TxPool], section 6 of the specification:
    the batch it offers a proposer, and the blocks it was reset to. *)
Record TxPool : Type := {
  pending : list Transaction;  (* what BuildBlockTransactions returns *)
  resets : list Block          (* the arguments of ResetTo, latest first *)
}.

Record ecdsaPublicKey : Type := { X : Z; Y : Z }.

(** Modelled from the spec: the ledger facade [repo] (its file is not among the
    sources), section 6 of the specification: blocks by hash, the head entry,
    the canonical hash of each height. *)
Record repo : Type := {
  blocks : gmap (list Z) Block;
  head : option Header;
  canonical : gmap Z (list Z)
}.

Record Blockchain : Type := {
  chain_repo : repo;
  Head : Block;
  Network : Z;
  vrfSigner : Z;
  pubKey : ecdsaPublicKey;
  coinBaseAddress : Address;
  txpool : TxPool;
  appState : AppState
}.

(** The functions [blockchain.go] calls in packages that are not among the
    sources.  A Go function returning a value and an error that the caller
    reads both of ([ProofToHash], [types.Sender]) returns the pair here. *)
Class Collaborators : Type := {
  Keccak256Hash : bytes -> Hash;
  UnmarshalPubkey : bytes -> error + ecdsaPublicKey;
  FromECDSAPub : ecdsaPublicKey -> bytes;
  NewVRFVerifier : ecdsaPublicKey -> option error;
  ProofToHash : ecdsaPublicKey -> bytes -> bytes -> Hash * option error;
  Evaluate : Z -> bytes -> Hash * bytes;
  ToBytes : Z -> Z -> bytes;  (* common.ToBytes: bit width of the Go integer type, value *)
  Block_Hash : Block -> Hash;
  DeriveSha : list Transaction -> Hash;
  Sender : Transaction -> Address * option error;
  StateRoot : gmap Z Account -> Hash;
  ValidateTx : AppState -> Transaction -> option error
}.

Definition BlockReward : Z := 5.

Definition ProposerRole : Z := 1.

(** ** The methods of the state handle

    Package [state] is not among the sources: the methods [blockchain.go] calls
    are modelled by their names and by sections 3 and 4.2 of the
    specification.  A getter of an address that has no account reads the empty
    account; a setter creates the account. *)

(** Modelled from the spec: the account of an address, empty when the state has
    none ([GetOrNewAccountObject]). *)
Definition account (st : StateDB) (a : Address) : Account :=
  default emptyAccount (live st !! a).

(** Modelled from the spec: a speculative write, seen by the getters only. *)
Definition update (st : StateDB) (a : Address) (acc : Account) : StateDB :=
  {| durable := durable st; fixed := fixed st;
     live := <[a := acc]> (live st); version := version st |}.

(** Modelled from the spec: [state.GetNonce]. *)
Definition GetNonce (st : StateDB) (a : Address) : Z := Nonce (account st a).

(** Modelled from the spec: [state.GetBalance]. *)
Definition GetBalance (st : StateDB) (a : Address) : Z := Balance (account st a).

(** Modelled from the spec: [state.SetNonce], which stores the nonce given. *)
Definition SetNonce (st : StateDB) (a : Address) (n : Z) : StateDB :=
  let acc := account st a in
  update st a {| Balance := Balance acc; Nonce := n; Approved := Approved acc |}.

(** Modelled from the spec: [state.SetBalance], which stores the balance given
    in place of the old one. *)
Definition SetBalance (st : StateDB) (a : Address) (v : Z) : StateDB :=
  let acc := account st a in
  update st a {| Balance := v; Nonce := Nonce acc; Approved := Approved acc |}.

(** Modelled from the spec: [state.AddBalance], the credit of section 4.2. *)
Definition AddBalance (st : StateDB) (a : Address) (v : Z) : StateDB :=
  SetBalance st a (GetBalance st a + v).

(** Modelled from the spec: [state.SubBalance], the debit of section 4.2. *)
Definition SubBalance (st : StateDB) (a : Address) (v : Z) : StateDB :=
  SetBalance st a (GetBalance st a - v).

(** Modelled from the spec: [state.GetOrNewIdentityObject(a).Approve()], which
    marks the identity of the address approved. *)
Definition Approve (st : StateDB) (a : Address) : StateDB :=
  let acc := account st a in
  update st a {| Balance := Balance acc; Nonce := Nonce acc; Approved := true |}.

(** Modelled from the spec: [state.Precommit], which fixes the root over the
    accounts as they stand, without making them durable. *)
Definition Precommit (st : StateDB) : StateDB :=
  {| durable := durable st; fixed := live st; live := live st; version := version st |}.

(** Modelled from the spec: [state.Reset], the rollback of section 4.2, which
    discards every mutation made since the last [Commit]. *)
Definition Reset (st : StateDB) : StateDB :=
  {| durable := durable st; fixed := durable st; live := durable st; version := version st |}.

(** Modelled from the spec: [state.NewForCheck(s)], the disposable handle of
    section 4.4, over the accounts as last committed. *)
Definition NewForCheck (st : StateDB) : StateDB := Reset st.

(** A handle with no mutation pending: what [Commit] and [Reset] leave. *)
Definition clean (st : StateDB) : Prop :=
  live st = durable st /\ fixed st = durable st.

(** Two handles over the same committed accounts and version. *)
Definition same_base (st st' : StateDB) : Prop :=
  durable st' = durable st /\ version st' = version st.

(** Two handles that hold the same accounts, whatever they last fixed or
    committed: the canonical handle of one node and the check handle of
    another, say. *)
Definition same_accounts (st st' : StateDB) : Prop := live st = live st'.

Section Model.

Context `{Collaborators}.

(** Modelled from the spec: [state.Root], the root last fixed. *)
Definition StateDB_Root (st : StateDB) : Hash := StateRoot (fixed st).

(** Modelled from the spec: [state.Commit], which makes the accounts durable
    and advances the version; of [hash, version, err := state.Commit(true)] the
    error is dropped by every caller. *)
Definition Commit (st : StateDB) : Hash * Z * StateDB :=
  let st' := {| durable := live st; fixed := live st; live := live st;
                version := version st + 1 |} in
  (StateDB_Root st', version st', st').

(** *** A state and error monad for the code that works on one handle

    A computation takes the handle and gives an outcome and the handle as the
    computation left it. *)

Definition M (A : Type) : Type := StateDB -> res A * StateDB.

Definition ret {A} (a : A) : M A := fun st => (Ok a, st).

Definition fail {A} (e : error) : M A := fun st => (Err e, st).

Definition panic {A} : M A := fun st => (Panic, st).

Definition bind {A B} (m : M A) (k : A -> M B) : M B :=
  fun st =>
    match m st with
    | (Ok a, st') => k a st'
    | (Err e, st') => (Err e, st')
    | (Panic, st') => (Panic, st')
    end.

Definition get {A} (f : StateDB -> A) : M A := fun st => (Ok (f st), st).

Definition modify (f : StateDB -> StateDB) : M unit := fun st => (Ok tt, f st).

(** [*p] of a pointer that may be nil. *)
Definition deref {A} (p : option A) : M A :=
  match p with Some a => ret a | None => panic end.

Notation "'do' x <- m ; k" := (bind m (fun x => k))
  (at level 10, x name, m at level 100, k at level 200).

(** ** The state transition *)

Definition getTxFee (chain : Blockchain) (tx : Transaction) : Z := 0.

(** The body of the loop of [processTxs]: one transaction, the fee pool so far
    in, the fee pool out. *)
Definition processTx (chain : Blockchain) (totalFee : Z) (tx : Transaction) : M Z :=
  let sender := fst (Sender tx) in
  do nonce <- get (fun st => GetNonce st sender);
  let expected := u64 (nonce + 1) in
  if decide (expected <> AccountNonce tx)
  then fail (ErrInvalidTxNonce expected (AccountNonce tx))
  else
    do totalFee' <-
      match Type_ tx with
      | ApprovingTx =>
          do _ <- modify (fun st => Approve st sender);
          ret totalFee
      | SendTx =>
          let fee := getTxFee chain tx in
          do balance <- get (fun st => GetBalance st sender);
          let amount := Amount tx in
          let change := balance - amount - fee in
          if change <? 0 then fail ErrNotEnoughFunds
          else
            do _ <- modify (fun st => SubBalance st sender amount);
            do _ <- modify (fun st => SubBalance st sender fee);
            do to <- deref (To tx);
            do _ <- modify (fun st => AddBalance st to amount);
            ret (totalFee + fee)
      | SendInviteTx => ret totalFee
      end;
    do _ <- modify (fun st => SetNonce st sender (u64 (AccountNonce tx + 1)));
    ret totalFee'.

Fixpoint processTxs_from (chain : Blockchain) (totalFee : Z) (txs : list Transaction) : M Z :=
  match txs with
  | [] => ret totalFee
  | tx :: rest =>
      do totalFee' <- processTx chain totalFee tx;
      processTxs_from chain totalFee' rest
  end.

Definition processTxs (chain : Blockchain) (block : Block) (proposing : bool) : M Z :=
  processTxs_from chain 0 (Transactions (body block)).

(** [block.Header.ProposedHeader]: nil in an empty block. *)
Definition proposedHeader (block : Block) : option ProposedHeader :=
  match header block with Proposed h => Some h | Empty _ => None end.

Definition applyAndValidateBlockState (chain : Blockchain) (block : Block) (proposing : bool)
  : M unit :=
  do totalFee <- processTxs chain block proposing;
  let feeReward := totalFee / 2 in
  do h <- deref (proposedHeader block);
  do _ <- modify (fun st => SetBalance st (Coinbase h) BlockReward);
  do _ <- modify (fun st => SetBalance st (Coinbase h) feeReward);
  do _ <- modify Precommit;
  do actualRoot <- get StateDB_Root;
  if negb proposing && negb (bool_decide (actualRoot = Block_Root block))
  then fail (ErrWrongStateRoot actualRoot (Block_Root block))
  else ret tt.

(** Modelled from the spec: [txpool.ResetTo], recorded. *)
Definition ResetTo (pool : TxPool) (block : Block) : TxPool :=
  {| pending := pending pool; resets := block :: resets pool |}.

(** Modelled from the spec: [ValidatorsCache.RefreshIfUpdated], recorded. *)
Definition RefreshIfUpdated (cache : ValidatorsCache) (txs : list Transaction)
  : ValidatorsCache :=
  {| refreshed := txs :: refreshed cache |}.

Definition with_appState (chain : Blockchain) (a : AppState) : Blockchain :=
  {| chain_repo := chain_repo chain; Head := Head chain; Network := Network chain;
     vrfSigner := vrfSigner chain; pubKey := pubKey chain;
     coinBaseAddress := coinBaseAddress chain; txpool := txpool chain; appState := a |}.

Definition with_txpool (chain : Blockchain) (pool : TxPool) : Blockchain :=
  {| chain_repo := chain_repo chain; Head := Head chain; Network := Network chain;
     vrfSigner := vrfSigner chain; pubKey := pubKey chain;
     coinBaseAddress := coinBaseAddress chain; txpool := pool; appState := appState chain |}.

(** The canonical handle [chain.appState.State] written back after a call
    that was given it. *)
Definition with_State (chain : Blockchain) (st : StateDB) : Blockchain :=
  with_appState chain {| State := st; Validators := Validators (appState chain) |}.

(** [applyBlock] is given the handle it works on, which is the canonical handle
    of the chain in [AddBlock] and a handle of its own in [ProposeBlock]; it
    returns the handle, and the chain with its pool and validators cache as
    the call left them. *)
Definition applyBlock (chain : Blockchain) (st : StateDB) (block : Block) (proposing : bool)
  : res unit * StateDB * Blockchain :=
  let '(r, st1) :=
    if negb (IsEmpty block)
    then applyAndValidateBlockState chain block proposing st
    else (Ok tt, st) in
  match r with
  | Err err => (Err err, Reset st1, chain)
  | Panic => (Panic, st1, chain)
  | Ok _ =>
      if negb proposing then
        let '(_, _, st2) := Commit st1 in
        let chain1 := with_txpool chain (ResetTo (txpool chain) block) in
        let cache := RefreshIfUpdated (Validators (appState chain1)) (Transactions (body block)) in
        (Ok tt, st2,
         with_appState chain1 {| State := State (appState chain1); Validators := cache |})
      else (Ok tt, st1, chain)
  end.

(** ** Seeds *)

Definition GetSeedData (chain : Blockchain) (proposalBlock : Block) : bytes :=
  let head := Head chain in
  let result := Block_Seed head in
  let result := result ++ ToBytes 64 (Block_Height proposalBlock) in
  let result := result ++ Block_Hash proposalBlock in
  result.

Definition getProposerData (chain : Blockchain) : bytes :=
  let head := Head chain in
  let result := Block_Seed head in
  let result := result ++ ToBytes 8 ProposerRole in
  let result := result ++ ToBytes 64 (u64 (Block_Height head + 1)) in
  result.

(** ** The ledger *)

Definition SetCurrentHead (chain : Blockchain) (block : Block) : Blockchain :=
  {| chain_repo := chain_repo chain; Head := block; Network := Network chain;
     vrfSigner := vrfSigner chain; pubKey := pubKey chain;
     coinBaseAddress := coinBaseAddress chain; txpool := txpool chain;
     appState := appState chain |}.

(** Modelled from the spec: [repo.WriteBlock], [repo.WriteHead] and
    [repo.WriteCanonicalHash]. *)
Definition WriteBlock (r : repo) (block : Block) : repo :=
  {| blocks := <[Block_Hash block := block]> (blocks r); head := head r;
     canonical := canonical r |}.

Definition WriteHead (r : repo) (h : Header) : repo :=
  {| blocks := blocks r; head := Some h; canonical := canonical r |}.

Definition WriteCanonicalHash (r : repo) (height : Z) (hash : Hash) : repo :=
  {| blocks := blocks r; head := head r; canonical := <[height := hash]> (canonical r) |}.

Definition with_repo (chain : Blockchain) (r : repo) : Blockchain :=
  {| chain_repo := r; Head := Head chain; Network := Network chain;
     vrfSigner := vrfSigner chain; pubKey := pubKey chain;
     coinBaseAddress := coinBaseAddress chain; txpool := txpool chain;
     appState := appState chain |}.

Definition insertBlock (chain : Blockchain) (block : Block) : Blockchain :=
  let chain := with_repo chain (WriteBlock (chain_repo chain) block) in
  let chain := with_repo chain (WriteHead (chain_repo chain) (header block)) in
  let chain := with_repo chain
    (WriteCanonicalHash (chain_repo chain) (Block_Height block) (Block_Hash block)) in
  SetCurrentHead chain block.

(** ** Block construction *)

Definition GenerateGenesis (chain : Blockchain) (network : Z) : Block * Blockchain :=
  let '(_, _, st) := Commit (State (appState chain)) in
  let chain := with_State chain st in
  let root := StateDB_Root (State (appState chain)) in
  let seed := Keccak256Hash ([1; 2; 3; 4; 5; 6] ++ ToBytes 32 network) in
  let block :=
    {| header := Proposed {| ParentHash := emptyHash; Height := 1; Time := 0;
                             ProposerPubKey := []; TxHash := emptyHash; Coinbase := 0;
                             Root := root |};
       body := {| Transactions := []; BlockSeed := seed; SeedProof := [] |} |} in
  (block, insertBlock chain block).

Definition with_BlockSeed (block : Block) (seed : Hash) (proof : bytes) : Block :=
  {| header := header block;
     body := {| Transactions := Transactions (body block); BlockSeed := seed;
                SeedProof := proof |} |}.

Definition GenerateEmptyBlock (chain : Blockchain) : Block :=
  let head := Head chain in
  let block :=
    {| header := Empty {| EParentHash := Block_Hash head;
                          EHeight := u64 (Block_Height head + 1);
                          ERoot := StateDB_Root (State (appState chain)) |};
       body := {| Transactions := []; BlockSeed := emptyHash; SeedProof := [] |} |} in
  with_BlockSeed block (Keccak256Hash (GetSeedData chain block)) (SeedProof (body block)).

(** [time.Now().UTC().Unix()] is the argument [now]; [hash] and [proof] are
    not read by the Go function. *)
Definition ProposeBlock (chain : Blockchain) (hash : Hash) (proof : bytes) (now : Z)
  : res Block :=
  let head := Head chain in
  let txs := pending (txpool chain) in
  let header0 :=
    {| Height := u64 (Block_Height head + 1);
       ParentHash := Block_Hash head;
       Time := now;
       ProposerPubKey := FromECDSAPub (pubKey chain);
       TxHash := DeriveSha txs;
       Coinbase := coinBaseAddress chain;
       Root := emptyHash |} in
  let block :=
    {| header := Proposed header0;
       body := {| Transactions := txs; BlockSeed := emptyHash; SeedProof := [] |} |} in
  let checkState := NewForCheck (State (appState chain)) in
  match applyBlock chain checkState block true with
  | (Err err, _, _) => Err err
  | (Panic, _, _) => Panic
  | (Ok _, checkState, _) =>
      let block :=
        {| header := Proposed {| Height := Height header0;
                                 ParentHash := ParentHash header0;
                                 Time := Time header0;
                                 ProposerPubKey := ProposerPubKey header0;
                                 TxHash := TxHash header0;
                                 Coinbase := Coinbase header0;
                                 Root := StateDB_Root checkState |};
           body := body block |} in
      let '(seed, seedProof) := Evaluate (vrfSigner chain) (GetSeedData chain block) in
      Ok (with_BlockSeed block seed seedProof)
  end.

(** ** Block validation *)

Definition validateBlockParentHash (chain : Blockchain) (block : Block) : res unit :=
  let head := Head chain in
  if decide (Block_Height head <> u64 (Block_Height block - 1)) then Err ErrHeightInvalid
  else if decide (Block_Hash head <> Header_ParentHash (header block))
  then Err ErrParentHashInvalid
  else Ok tt.

(** The loop over the transactions at the end of [ValidateProposedBlock]. *)
Fixpoint validateTxs (a : AppState) (txs : list Transaction) : res unit :=
  match txs with
  | [] => Ok tt
  | tx :: rest =>
      match ValidateTx a tx with
      | Some err => Err err
      | None => validateTxs a rest
      end
  end.

Definition ValidateProposedBlock (chain : Blockchain) (block : Block) : res unit :=
  match validateBlockParentHash chain block with
  | Err err => Err err
  | Panic => Panic
  | Ok _ =>
      let seedData := GetSeedData chain block in
      match proposedHeader block with
      | None => Panic
      | Some h =>
          match UnmarshalPubkey (ProposerPubKey h) with
          | inl err => Err err
          | inr pubKey =>
              match NewVRFVerifier pubKey with
              | Some err => Err err
              | None =>
                  match ProofToHash pubKey seedData (SeedProof (body block)) with
                  | (_, Some err) => Err err
                  | (hash, None) =>
                      if negb (bool_decide (hash = Block_Seed block)) || (HashLength =? 0)
                      then Err ErrSeedInvalid
                      else
                        let txs := Transactions (body block) in
                        if decide (DeriveSha txs <> TxHash h) then Err ErrTxHashInvalid
                        else validateTxs (appState chain) txs
                  end
              end
          end
      end
  end.

Definition ValidateProposerProof (chain : Blockchain) (proof : bytes) (hash : Hash)
    (pubKeyData : bytes) : res unit :=
  match UnmarshalPubkey pubKeyData with
  | inl err => Err err
  | inr pubKey =>
      match NewVRFVerifier pubKey with
      | Some err => Err err
      | None =>
          let '(h, _) := ProofToHash pubKey (getProposerData chain) proof in
          if decide (h <> hash) then Err ErrHashesNotEqual else Ok tt
      end
  end.

(** ** Block admission *)

Definition AddBlock (chain : Blockchain) (block : Block) : res unit * Blockchain :=
  match validateBlockParentHash chain block with
  | Err err => (Err err, chain)
  | Panic => (Panic, chain)
  | Ok _ =>
      if IsEmpty block then
        match applyBlock chain (State (appState chain)) block false with
        | (Err err, st, chain) => (Err err, with_State chain st)
        | (Panic, st, chain) => (Panic, with_State chain st)
        | (Ok _, st, chain) =>
            let chain := with_State chain st in
            (Ok tt, insertBlock chain (GenerateEmptyBlock chain))
        end
      else
        match ValidateProposedBlock chain block with
        | Err err => (Err err, chain)
        | Panic => (Panic, chain)
        | Ok _ =>
            match applyBlock chain (State (appState chain)) block false with
            | (Err err, st, chain) => (Err err, with_State chain st)
            | (Panic, st, chain) => (Panic, with_State chain st)
            | (Ok _, st, chain) =>
                let chain := with_State chain st in
                (Ok tt, insertBlock chain block)
            end
        end
  end.

(** The root a replay of the block on the handle fixes: what the speculative
    run of [ProposeBlock] writes into the header. *)
Definition replayRoot (chain : Blockchain) (st : StateDB) (block : Block) : option Hash :=
  match applyAndValidateBlockState chain block true st with
  | (Ok _, st') => Some (StateDB_Root st')
  | _ => None
  end.

Definition Round (chain : Blockchain) : Z := u64 (Block_Height (Head chain) + 1).

End Model.

(** ** A small instance of the collaborators

    Used to run the model on concrete blocks: a digest of four bytes padded to
    32, keys of two bytes, a proof that is valid when it is the digest the
    key gives for the message. *)

Definition toyDigest (salt : Z) (m : bytes) : Hash :=
  let s := fold_left (fun acc b => (acc * 31 + b + 1) mod 2 ^ 32) m salt in
  [s mod 256; (s / 2 ^ 8) mod 256; (s / 2 ^ 16) mod 256; (s / 2 ^ 24) mod 256]
    ++ replicate 28 0.

Definition toyAccountBytes (kv : Z * Account) : bytes :=
  [fst kv; Balance (snd kv); Nonce (snd kv); if Approved (snd kv) then 1 else 0].

Definition toyTxBytes (tx : Transaction) : bytes :=
  [AccountNonce tx; match Type_ tx with SendTx => 0 | SendInviteTx => 1 | ApprovingTx => 2 end;
   default (-1) (To tx); Amount tx] ++ Signature tx.

Definition toyHeaderBytes (h : Header) : bytes :=
  match h with
  | Proposed p =>
      [0; Height p; Time p; Coinbase p] ++ ParentHash p ++ ProposerPubKey p
        ++ TxHash p ++ Root p
  | Empty e => [1; EHeight e] ++ EParentHash e ++ ERoot e
  end.

Definition toy : Collaborators := {|
  Keccak256Hash := toyDigest 1;
  UnmarshalPubkey := fun bs =>
    match bs with
    | [x; y] => inr {| X := x; Y := y |}
    | _ => inl (ErrCollaborator 1)
    end;
  FromECDSAPub := fun k => [X k; Y k];
  NewVRFVerifier := fun k => if Y k =? X k + 1 then None else Some (ErrCollaborator 2);
  ProofToHash := fun k m proof =>
    if bool_decide (proof = toyDigest (X k + 3) m)
    then (toyDigest (X k + 2) m, None)
    else (emptyHash, Some (ErrCollaborator 3));
  Evaluate := fun sk m => (toyDigest (sk + 2) m, toyDigest (sk + 3) m);
  ToBytes := fun width v => [width; v];
  Block_Hash := fun b => toyDigest 4 (toyHeaderBytes (header b));
  DeriveSha := fun txs => toyDigest 5 (concat (map toyTxBytes txs));
  Sender := fun tx =>
    match Signature tx with
    | a :: _ => (a, None)
    | [] => (0, Some (ErrCollaborator 4))
    end;
  StateRoot := fun m => toyDigest 6 (concat (map toyAccountBytes (map_to_list m)));
  ValidateTx := fun _ tx =>
    match Signature tx with
    | _ :: _ => None
    | [] => Some (ErrCollaborator 4)
    end
|}.

(** ** Sample values *)

Definition sampleAccounts : gmap Z Account :=
  <[7 := {| Balance := 10; Nonce := 0; Approved := false |}]>
    (<[9 := {| Balance := 100; Nonce := 4; Approved := false |}]> ∅).

Definition sampleState : StateDB :=
  {| durable := sampleAccounts; fixed := sampleAccounts; live := sampleAccounts;
     version := 1 |}.

Definition sampleGenesis : Block :=
  {| header := Proposed {| ParentHash := emptyHash; Height := 1; Time := 0;
                           ProposerPubKey := []; TxHash := emptyHash; Coinbase := 0;
                           Root := @StateRoot toy sampleAccounts |};
     body := {| Transactions := []; BlockSeed := toyDigest 1 [1; 2; 3; 4; 5; 6; 32; 2];
                SeedProof := [] |} |}.

(** Account 7 pays 4 to account 8, with the nonce its stored nonce 0 asks for. *)
Definition sampleSend : Transaction :=
  {| AccountNonce := 1; Type_ := SendTx; To := Some 8; Amount := 4; Signature := [7] |}.

Definition sampleChain : Blockchain :=
  {| chain_repo := {| blocks := ∅; head := None; canonical := ∅ |};
     Head := sampleGenesis; Network := 2; vrfSigner := 11;
     pubKey := {| X := 11; Y := 12 |}; coinBaseAddress := 9;
     txpool := {| pending := [sampleSend]; resets := [] |};
     appState := {| State := sampleState; Validators := {| refreshed := [] |} |} |}.

(** A proposed block on top of [sampleGenesis] with the given transactions,
    root, seed and proof. *)
Definition sampleBlock (txs : list Transaction) (root seed : Hash) (proof : bytes) : Block :=
  {| header := Proposed {| ParentHash := @Block_Hash toy sampleGenesis; Height := 2;
                           Time := 100; ProposerPubKey := [11; 12];
                           TxHash := @DeriveSha toy txs; Coinbase := 9; Root := root |};
     body := {| Transactions := txs; BlockSeed := seed; SeedProof := proof |} |}.

(** The last step of [ProposeBlock] on [sampleChain]: the seed and its proof
    over the block as it stands. *)
Definition sampleSeal (blk : Block) : Block :=
  let '(seed, proof) := @Evaluate toy (vrfSigner sampleChain) (@GetSeedData toy sampleChain blk) in
  with_BlockSeed blk seed proof.

(** The root a replay of [sampleSend] on [sampleState] fixes. *)
Definition sampleRoot : Hash :=
  default emptyHash
    (@replayRoot toy sampleChain sampleState (sampleBlock [sampleSend] emptyHash emptyHash [])).

(** The block an honest proposer makes of [sampleSend]. *)
Definition sampleProposal : Block :=
  sampleSeal (sampleBlock [sampleSend] sampleRoot emptyHash []).

(** The same block claiming the all-zero root, sealed by its proposer. *)
Definition sampleForged : Block :=
  sampleSeal (sampleBlock [sampleSend] emptyHash emptyHash []).

(** [sampleSend] with a nonce two ahead of the stored nonce. *)
Definition sampleGap : Transaction :=
  {| AccountNonce := 2; Type_ := SendTx; To := Some 8; Amount := 4; Signature := [7] |}.

(** [sampleSend] with the stored nonce itself. *)
Definition sampleReplay : Transaction :=
  {| AccountNonce := 0; Type_ := SendTx; To := Some 8; Amount := 4; Signature := [7] |}.

(** Account 9 pays 1000 of the 100 it holds, with the right nonce. *)
Definition sampleOverdraft : Transaction :=
  {| AccountNonce := 5; Type_ := SendTx; To := Some 8; Amount := 1000; Signature := [9] |}.

(** Account 7 pays all it holds to itself, with the right nonce. *)
Definition sampleSelfSend : Transaction :=
  {| AccountNonce := 1; Type_ := SendTx; To := Some 7; Amount := 10; Signature := [7] |}.

(** Account 7 pays all it holds, and one more than it holds, to account 8. *)
Definition sampleSendAll : Transaction :=
  {| AccountNonce := 1; Type_ := SendTx; To := Some 8; Amount := 10; Signature := [7] |}.

Definition sampleSendTooMuch : Transaction :=
  {| AccountNonce := 1; Type_ := SendTx; To := Some 8; Amount := 11; Signature := [7] |}.

(** An empty block on top of [sampleGenesis] that claims the all-zero root
    and carries no seed. *)
Definition sampleEmpty : Block :=
  {| header := Empty {| EParentHash := @Block_Hash toy sampleGenesis; EHeight := 2;
                        ERoot := emptyHash |};
     body := {| Transactions := []; BlockSeed := emptyHash; SeedProof := [] |} |}.

(** The block [GenerateEmptyBlock] fills in, before its seed is set. *)
Definition emptyBlockTemplate `{Collaborators} (chain : Blockchain) : Block :=
  {| header := Empty {| EParentHash := Block_Hash (Head chain);
                        EHeight := u64 (Block_Height (Head chain) + 1);
                        ERoot := StateDB_Root (State (appState chain)) |};
     body := {| Transactions := []; BlockSeed := emptyHash; SeedProof := [] |} |}.

(** The block [ProposeBlock] has built when it evaluates the seed: the pending
    transactions under a header with the root of the speculative run. *)
Definition proposalTemplate `{Collaborators} (chain : Blockchain) (now : Z) (root : Hash)
  : Block :=
  {| header := Proposed {| Height := u64 (Block_Height (Head chain) + 1);
                           ParentHash := Block_Hash (Head chain);
                           Time := now;
                           ProposerPubKey := FromECDSAPub (pubKey chain);
                           TxHash := DeriveSha (pending (txpool chain));
                           Coinbase := coinBaseAddress chain;
                           Root := root |};
     body := {| Transactions := pending (txpool chain); BlockSeed := emptyHash;
                SeedProof := [] |} |}.

(** [sampleState] with a write pending that no [Commit] has made durable:
    account 7 is given 50 where the committed accounts give it 10. *)
Definition sampleDirty : StateDB := SetBalance sampleState 7 50.

Create HintDb base_db.

Ltac run_monad := unfold bind, ret, fail, panic, get, modify, deref in *; simpl in *.

(** ** Readers of the ledger, sortition and start-up *)

(** Modelled from the spec: [repo.ReadBlock] (the file of [repo] is not among
    the sources), section 6 of the specification; nil when the ledger has no
    block under the hash. *)
Definition ReadBlock (r : repo) (hash : Hash) : option Block := blocks r !! hash.

(** Modelled from the spec: [repo.ReadCanonicalHash]; the zero hash when the
    height has no entry, which is what [GetBlockByHeight] tests for. *)
Definition ReadCanonicalHash (r : repo) (height : Z) : Hash :=
  default emptyHash (canonical r !! height).

(** Modelled from the spec: [repo.ReadHead]; nil before a head was written. *)
Definition ReadHead (r : repo) : option Header := head r.

Definition GetBlockByHeight (chain : Blockchain) (height : Z) : option Block :=
  let hash := ReadCanonicalHash (chain_repo chain) height in
  if decide (hash = emptyHash) then None
  else ReadBlock (chain_repo chain) hash.

Definition GetBlock (chain : Blockchain) (hash : Hash) : option Block :=
  ReadBlock (chain_repo chain) hash.

Section Node.

Context `{Collaborators}.

(** [Header.Hash] of package [types]. *)
Variable Header_Hash : Header -> Hash.

(** The threshold test of [getSortition], lines 316 to 321: the hash as a
    fraction of the largest hash, rounded to 10 bits, compared as a [float64]
    with the threshold of the configuration.  It reads the hash and the
    configuration of the chain and nothing else. *)
Variable reachesThreshold : Blockchain -> Hash -> bool.

(** [p256.NewVRFSigner], [secretKey.Public()] and [crypto.PubkeyToAddress]. *)
Variable NewVRFSigner : Z -> error + Z.
Variable Public : Z -> ecdsaPublicKey.
Variable PubkeyToAddress : ecdsaPublicKey -> Address.

Definition GetHead (chain : Blockchain) : option Block :=
  match ReadHead (chain_repo chain) with
  | None => None
  | Some head => ReadBlock (chain_repo chain) (Header_Hash head)
  end.

Definition getSortition (chain : Blockchain) (data : bytes) : bool * Hash * bytes :=
  let '(hash, proof) := Evaluate (vrfSigner chain) data in
  if reachesThreshold chain hash then (true, hash, proof)
  else (false, emptyHash, []).

Definition GetProposerSortition (chain : Blockchain) : bool * Hash * bytes :=
  getSortition chain (getProposerData chain).

Definition with_keys (chain : Blockchain) (signer : Z) (pub : ecdsaPublicKey)
    (coinbase : Address) : Blockchain :=
  {| chain_repo := chain_repo chain; Head := Head chain; Network := Network chain;
     vrfSigner := signer; pubKey := pub; coinBaseAddress := coinbase;
     txpool := txpool chain; appState := appState chain |}.

(** [chain.Head] is nil until [InitializeChain] sets it; here the field holds
    a block that is not read before. *)
Definition InitializeChain (chain : Blockchain) (secretKey : Z) : res unit * Blockchain :=
  match NewVRFSigner secretKey with
  | inl err => (Err err, chain)
  | inr signer =>
      let pub := Public secretKey in
      let chain := with_keys chain signer pub (PubkeyToAddress pub) in
      match GetHead chain with
      | Some head => (Ok tt, SetCurrentHead chain head)
      | None => (Ok tt, snd (GenerateGenesis chain (Network chain)))
      end
  end.

End Node.

(** ** Measures of the account state *)

(** The sum of the balances of all accounts. *)
Definition totalBalance (m : gmap Z Account) : Z :=
  map_fold (fun _ acc sum => Balance acc + sum) 0 m.

(** The addresses a transaction reads or writes: its sender, and the
    recipient of a payment. *)
Definition touches `{Collaborators} (tx : Transaction) (a : Address) : Prop :=
  a = fst (Sender tx) \/ (Type_ tx = SendTx /\ To tx = Some a).

(** No account holds a negative balance. *)
Definition nonneg (st : StateDB) : Prop :=
  map_Forall (fun _ acc => 0 <= Balance acc) (live st).

(** * Properties *)

(** ** The state handle *)

Lemma account_update_eq st a acc : account (update st a acc) a = acc.
Proof. unfold account, update; simpl. by rewrite lookup_insert_eq. Qed.

Lemma account_update_ne st a b acc : a <> b -> account (update st a acc) b = account st b.
Proof. intros Hne. unfold account, update; simpl. by rewrite lookup_insert_ne. Qed.

Lemma GetNonce_SetNonce_eq st a n : GetNonce (SetNonce st a n) a = n.
Proof. unfold GetNonce, SetNonce. by rewrite account_update_eq. Qed.

Lemma GetNonce_SetNonce_ne st a b n : a <> b -> GetNonce (SetNonce st a n) b = GetNonce st b.
Proof. intros. unfold GetNonce, SetNonce. by rewrite account_update_ne. Qed.

Lemma GetNonce_SetBalance st a b v : GetNonce (SetBalance st a v) b = GetNonce st b.
Proof.
  unfold GetNonce, SetBalance. destruct (decide (a = b)) as [->|Hne].
  - by rewrite account_update_eq.
  - by rewrite account_update_ne.
Qed.

Lemma GetNonce_AddBalance st a b v : GetNonce (AddBalance st a v) b = GetNonce st b.
Proof. apply GetNonce_SetBalance. Qed.

Lemma GetNonce_SubBalance st a b v : GetNonce (SubBalance st a v) b = GetNonce st b.
Proof. apply GetNonce_SetBalance. Qed.

Lemma GetNonce_Approve st a b : GetNonce (Approve st a) b = GetNonce st b.
Proof.
  unfold GetNonce, Approve. destruct (decide (a = b)) as [->|Hne].
  - by rewrite account_update_eq.
  - by rewrite account_update_ne.
Qed.

Lemma GetBalance_SetBalance_eq st a v : GetBalance (SetBalance st a v) a = v.
Proof. unfold GetBalance, SetBalance. by rewrite account_update_eq. Qed.

Lemma GetBalance_SetBalance_ne st a b v :
  a <> b -> GetBalance (SetBalance st a v) b = GetBalance st b.
Proof. intros. unfold GetBalance, SetBalance. by rewrite account_update_ne. Qed.

Lemma GetBalance_SetNonce st a b n : GetBalance (SetNonce st a n) b = GetBalance st b.
Proof.
  unfold GetBalance, SetNonce. destruct (decide (a = b)) as [->|Hne].
  - by rewrite account_update_eq.
  - by rewrite account_update_ne.
Qed.

Lemma GetBalance_Precommit st a : GetBalance (Precommit st) a = GetBalance st a.
Proof. reflexivity. Qed.

Lemma same_base_refl st : same_base st st.
Proof. by split. Qed.

Lemma same_base_trans st1 st2 st3 :
  same_base st1 st2 -> same_base st2 st3 -> same_base st1 st3.
Proof. intros [? ?] [? ?]. split; congruence. Qed.

Lemma same_base_update st a acc : same_base st (update st a acc).
Proof. by split. Qed.

Lemma same_base_Precommit st : same_base st (Precommit st).
Proof. by split. Qed.

Lemma Reset_same_base st st' : same_base st st' -> Reset st' = Reset st.
Proof. intros [Hd Hv]. unfold Reset. by rewrite Hd, Hv. Qed.

Lemma Reset_clean st : clean st -> Reset st = st.
Proof. intros [Hl Hf]. destruct st; simpl in *; subst. reflexivity. Qed.

Lemma clean_Reset st : clean (Reset st).
Proof. by split. Qed.

#[local] Hint Resolve same_base_refl same_base_update same_base_Precommit : base_db.

(** ** The monad *)

Lemma bind_Ok {A B} (m : M A) (k : A -> M B) st a st' :
  m st = (Ok a, st') -> bind m k st = k a st'.
Proof. intros Hm. unfold bind. by rewrite Hm. Qed.

Lemma bind_Err {A B} (m : M A) (k : A -> M B) st e st' :
  m st = (Err e, st') -> bind m k st = (Err e, st').
Proof. intros Hm. unfold bind. by rewrite Hm. Qed.

Lemma bind_Panic {A B} (m : M A) (k : A -> M B) st st' :
  m st = (Panic, st') -> bind m k st = (Panic, st').
Proof. intros Hm. unfold bind. by rewrite Hm. Qed.

(** ** One transaction *)

Section Transition.

Context `{Collaborators}.

Lemma processTx_bad_nonce c fee tx st :
  AccountNonce tx <> u64 (GetNonce st (fst (Sender tx)) + 1) ->
  processTx c fee tx st
  = (Err (ErrInvalidTxNonce (u64 (GetNonce st (fst (Sender tx)) + 1)) (AccountNonce tx)), st).
Proof.
  intros Hne. unfold processTx. run_monad.
  case_decide; [reflexivity | congruence].
Qed.

(** What [processTx] does once the nonce check has passed, by transaction type. *)
Lemma processTx_good_nonce c fee tx st :
  AccountNonce tx = u64 (GetNonce st (fst (Sender tx)) + 1) ->
  let sender := fst (Sender tx) in
  let bump st' := SetNonce st' sender (u64 (AccountNonce tx + 1)) in
  processTx c fee tx st =
  match Type_ tx with
  | ApprovingTx => (Ok fee, bump (Approve st sender))
  | SendInviteTx => (Ok fee, bump st)
  | SendTx =>
      if GetBalance st sender - Amount tx - 0 <? 0 then (Err ErrNotEnoughFunds, st)
      else
        let st1 := SubBalance (SubBalance st sender (Amount tx)) sender 0 in
        match To tx with
        | None => (Panic, st1)
        | Some to => (Ok (fee + 0), bump (AddBalance st1 to (Amount tx)))
        end
  end.
Proof.
  intros Heq. unfold processTx, getTxFee. run_monad.
  case_decide; [congruence |].
  destruct (Type_ tx); try reflexivity.
  destruct (_ <? 0); [reflexivity |].
  destruct (To tx); reflexivity.
Qed.

Lemma processTx_same_base c fee tx st r st' :
  processTx c fee tx st = (r, st') -> same_base st st'.
Proof.
  destruct (decide (AccountNonce tx = u64 (GetNonce st (fst (Sender tx)) + 1))) as [Heq|Hne].
  - rewrite (processTx_good_nonce _ _ _ _ Heq). simpl.
    destruct (Type_ tx).
    + destruct (_ <? 0); [intros [= <- <-]; apply same_base_refl |].
      destruct (To tx); intros [= <- <-]; by split.
    + intros [= <- <-]; by split.
    + intros [= <- <-]; by split.
  - rewrite (processTx_bad_nonce _ _ _ _ Hne). intros [= <- <-]. apply same_base_refl.
Qed.

Lemma processTx_Ok_inv c fee tx st fee' st' :
  processTx c fee tx st = (Ok fee', st') ->
  AccountNonce tx = u64 (GetNonce st (fst (Sender tx)) + 1)
  /\ GetNonce st' (fst (Sender tx)) = u64 (AccountNonce tx + 1)
  /\ fee' = fee.
Proof.
  destruct (decide (AccountNonce tx = u64 (GetNonce st (fst (Sender tx)) + 1))) as [Heq|Hne].
  - rewrite (processTx_good_nonce _ _ _ _ Heq). simpl.
    destruct (Type_ tx).
    + destruct (_ <? 0); [discriminate |].
      destruct (To tx); [| discriminate].
      intros [= <- <-]. rewrite GetNonce_SetNonce_eq. split_and!; [done | done | lia].
    + intros [= <- <-]. by rewrite GetNonce_SetNonce_eq.
    + intros [= <- <-]. by rewrite GetNonce_SetNonce_eq.
  - rewrite (processTx_bad_nonce _ _ _ _ Hne). discriminate.
Qed.

(** ** The loop over the transactions of a block *)

Lemma processTxs_from_app c fee pre rest st :
  processTxs_from c fee (pre ++ rest) st
  = bind (processTxs_from c fee pre) (fun fee' => processTxs_from c fee' rest) st.
Proof.
  revert fee st. induction pre as [|tx pre IH]; intros fee st; simpl.
  - reflexivity.
  - unfold bind. destruct (processTx c fee tx st) as [[fee'| e |] st1].
    + rewrite IH. reflexivity.
    + reflexivity.
    + reflexivity.
Qed.

Lemma processTxs_from_same_base c txs : forall fee st r st',
  processTxs_from c fee txs st = (r, st') -> same_base st st'.
Proof.
  induction txs as [|tx txs IH]; intros fee st r st'; simpl.
  - intros [= <- <-]. apply same_base_refl.
  - unfold bind. destruct (processTx c fee tx st) as [[fee'| e |] st1] eqn:Htx.
    + intros Hrest. eapply same_base_trans.
      * eapply processTx_same_base, Htx.
      * eapply IH, Hrest.
    + intros [= <- <-]. eapply processTx_same_base, Htx.
    + intros [= <- <-]. eapply processTx_same_base, Htx.
Qed.

(** The fee pool of a block is always empty: [getTxFee] is the constant 0. *)
Lemma processTxs_from_fee c txs : forall fee st fee' st',
  processTxs_from c fee txs st = (Ok fee', st') -> fee' = fee.
Proof.
  induction txs as [|tx txs IH]; intros fee st fee' st'; simpl.
  - by intros [= <- <-].
  - unfold bind. destruct (processTx c fee tx st) as [[fee1| e |] st1] eqn:Htx; try discriminate.
    intros Hrest. apply IH in Hrest. apply processTx_Ok_inv in Htx as (_ & _ & ->). done.
Qed.

End Transition.

(** ** One block on one handle *)

Section BlockLevel.

Context `{Collaborators}.

(** [applyAndValidateBlockState] step by step. *)
Lemma applyAndValidateBlockState_unfold c b p st :
  applyAndValidateBlockState c b p st =
  match processTxs c b p st with
  | (Ok fee, st1) =>
      match proposedHeader b with
      | None => (Panic, st1)
      | Some h =>
          let st2 :=
            Precommit (SetBalance (SetBalance st1 (Coinbase h) BlockReward)
                                  (Coinbase h) (fee / 2)) in
          if negb p && negb (bool_decide (StateDB_Root st2 = Block_Root b))
          then (Err (ErrWrongStateRoot (StateDB_Root st2) (Block_Root b)), st2)
          else (Ok tt, st2)
      end
  | (Err e, st1) => (Err e, st1)
  | (Panic, st1) => (Panic, st1)
  end.
Proof.
  unfold applyAndValidateBlockState, bind.
  destruct (processTxs c b p st) as [[fee | e |] st1]; try reflexivity.
  destruct (proposedHeader b) as [h|]; simpl; [| reflexivity].
  unfold modify, get, fail, ret; simpl.
  destruct (negb p && _); reflexivity.
Qed.

Lemma applyAndValidateBlockState_same_base c b p st r st' :
  applyAndValidateBlockState c b p st = (r, st') -> same_base st st'.
Proof.
  rewrite applyAndValidateBlockState_unfold. unfold processTxs.
  destruct (processTxs_from c 0 (Transactions (body b)) st) as [[fee | e |] st1] eqn:Htxs;
    apply processTxs_from_same_base in Htxs.
  - destruct (proposedHeader b) as [h|]; simpl.
    + destruct (negb p && _); intros [= <- <-];
        (eapply same_base_trans; [exact Htxs | by split]).
    + by intros [= <- <-].
  - by intros [= <- <-].
  - by intros [= <- <-].
Qed.

(** The speculative and the checking run leave the same handle. *)
Lemma applyAndValidateBlockState_handle c b p1 p2 st :
  snd (applyAndValidateBlockState c b p1 st) = snd (applyAndValidateBlockState c b p2 st).
Proof.
  rewrite !applyAndValidateBlockState_unfold. unfold processTxs.
  destruct (processTxs_from c 0 (Transactions (body b)) st) as [[fee | e |] st1];
    try reflexivity.
  destruct (proposedHeader b) as [h|]; simpl; [| reflexivity].
  destruct (negb p1 && _), (negb p2 && _); reflexivity.
Qed.

Lemma applyBlock_Err c st b p e st1 :
  IsEmpty b = false ->
  applyAndValidateBlockState c b p st = (Err e, st1) ->
  applyBlock c st b p = (Err e, Reset st, c).
Proof.
  intros Hne Happly. unfold applyBlock. rewrite Hne; simpl. rewrite Happly.
  apply applyAndValidateBlockState_same_base in Happly.
  by rewrite (Reset_same_base _ _ Happly).
Qed.

Lemma applyBlock_Err_inv c st b p e st' c' :
  applyBlock c st b p = (Err e, st', c') ->
  IsEmpty b = false /\ c' = c /\ st' = Reset st
  /\ exists st1, applyAndValidateBlockState c b p st = (Err e, st1).
Proof.
  unfold applyBlock. destruct (IsEmpty b); simpl.
  - destruct p; simpl; discriminate.
  - destruct (applyAndValidateBlockState c b p st) as [[[] | e1 |] st1] eqn:Happly.
    + destruct p; simpl; discriminate.
    + intros [= <- <- <-]. apply applyAndValidateBlockState_same_base in Happly.
      rewrite (Reset_same_base _ _ Happly). eauto.
    + discriminate.
Qed.

(** ** Validation never panics on a proposed block *)

Lemma validateBlockParentHash_cases c b :
  validateBlockParentHash c b = Ok tt
  \/ exists e, validateBlockParentHash c b = Err e.
Proof.
  unfold validateBlockParentHash. repeat case_decide; eauto.
Qed.

Lemma validateBlockParentHash_Ok c b :
  validateBlockParentHash c b = Ok tt ->
  Block_Height (Head c) = u64 (Block_Height b - 1)
  /\ Block_Hash (Head c) = Header_ParentHash (header b).
Proof.
  unfold validateBlockParentHash. repeat case_decide; try discriminate.
  intros _. split.
  - destruct (decide (Block_Height (Head c) = u64 (Block_Height b - 1))); [done | contradiction].
  - destruct (decide (Block_Hash (Head c) = Header_ParentHash (header b)));
      [done | contradiction].
Qed.

Lemma validateTxs_cases a txs :
  validateTxs a txs = Ok tt \/ exists e, validateTxs a txs = Err e.
Proof.
  induction txs as [|tx txs IH]; simpl; [by left |].
  destruct (ValidateTx a tx); eauto.
Qed.

Lemma ValidateProposedBlock_cases c b :
  IsEmpty b = false ->
  ValidateProposedBlock c b = Ok tt \/ exists e, ValidateProposedBlock c b = Err e.
Proof.
  intros Hne. unfold ValidateProposedBlock.
  destruct (validateBlockParentHash_cases c b) as [-> | [e ->]]; [| eauto].
  unfold proposedHeader, IsEmpty in *. destruct (header b) as [h | h]; [| discriminate].
  destruct (UnmarshalPubkey _) as [e | pk]; [eauto |].
  destruct (NewVRFVerifier pk); [eauto |].
  destruct (ProofToHash _ _ _) as [hash [e|]]; [eauto |].
  destruct (_ || _); [eauto |].
  case_decide; [eauto |].
  apply validateTxs_cases.
Qed.

(** A proposed block whose application fails is not inserted. *)
Lemma AddBlock_apply_Err c b e st1 :
  IsEmpty b = false ->
  applyBlock c (State (appState c)) b false = (Err e, st1, c) ->
  exists e' c', AddBlock c b = (Err e', c')
    /\ Head c' = Head c /\ chain_repo c' = chain_repo c.
Proof.
  intros Hne Happly. unfold AddBlock.
  destruct (validateBlockParentHash_cases c b) as [-> | [e1 ->]]; [| eauto].
  rewrite Hne.
  destruct (ValidateProposedBlock_cases c b Hne) as [-> | [e1 ->]]; [| eauto].
  rewrite Happly. eauto.
Qed.

End BlockLevel.

(** * The claims *)

(** C1 (root binding).  A proposed block whose claimed root differs from the
    root that a replay of its transactions on the handle fixes is rejected:
    [applyBlock] in checking mode returns the wrong-state-root error with the
    handle rolled back, and [AddBlock] on the canonical handle returns an
    error and leaves head and ledger as they were. *)
Theorem C1_root_binding `{Collaborators} (c : Blockchain) (st : StateDB) (b : Block)
    (r : Hash) :
  IsEmpty b = false ->
  replayRoot c st b = Some r ->
  r <> Block_Root b ->
  applyBlock c st b false = (Err (ErrWrongStateRoot r (Block_Root b)), Reset st, c)
  /\ (st = State (appState c) ->
      exists e c', AddBlock c b = (Err e, c')
        /\ Head c' = Head c /\ chain_repo c' = chain_repo c).
Proof.
  intros Hne Hreplay Hroot.
  assert (Happly : exists st1,
    applyAndValidateBlockState c b false st
    = (Err (ErrWrongStateRoot r (Block_Root b)), st1)).
  { unfold replayRoot in Hreplay. revert Hreplay.
    rewrite !applyAndValidateBlockState_unfold. unfold processTxs.
    destruct (processTxs_from c 0 (Transactions (body b)) st) as [[fee | e |] st1];
      try discriminate.
    destruct (proposedHeader b) as [h|]; simpl; [| discriminate].
    intros [= <-]. rewrite bool_decide_eq_false_2 by exact Hroot. simpl. eauto. }
  destruct Happly as [st1 Happly].
  pose proof (applyBlock_Err _ _ _ _ _ _ Hne Happly) as Hblock.
  split; [exact Hblock |].
  intros ->. eapply AddBlock_apply_Err; eauto.
Qed.

Lemma C1_root_binding_witness :
  @applyBlock toy sampleChain sampleState sampleForged false
  = (Err (ErrWrongStateRoot sampleRoot (Block_Root sampleForged)), Reset sampleState, sampleChain)
  /\ (sampleState = State (appState sampleChain) ->
      exists e c', @AddBlock toy sampleChain sampleForged = (Err e, c')
        /\ Head c' = Head sampleChain /\ chain_repo c' = chain_repo sampleChain).
Proof.
  apply (C1_root_binding (H := toy) sampleChain sampleState sampleForged sampleRoot).
  - reflexivity.
  - vm_compute. reflexivity.
  - vm_compute. discriminate.
Defined.

(** The forged block passes every check of [ValidateProposedBlock] and is
    rejected for its root; the honest block is accepted. *)
Example sampleForged_rejected :
  @ValidateProposedBlock toy sampleChain sampleForged = Ok tt
  /\ @AddBlock toy sampleChain sampleForged
     = (Err (ErrWrongStateRoot sampleRoot emptyHash), sampleChain).
Proof. split; vm_compute; reflexivity. Qed.

Example sampleProposal_accepted :
  fst (@AddBlock toy sampleChain sampleProposal) = Ok tt
  /\ @ProposeBlock toy sampleChain [] [] 100 = Ok sampleProposal.
Proof. split; vm_compute; reflexivity. Qed.

(** C2 (coinbase reward).  What the code does: after the transactions of a
    proposed block, [SetBalance] is called twice on the coinbase address, first
    with the block reward and then with half of the fee pool, and the second
    call overwrites the first; the fee pool is 0, since [getTxFee] is the
    constant 0.  The balance of the coinbase address after the block is thus
    [fee / 2 = 0], whatever it was before: the address is not credited with
    [BlockReward + fee / 2]. *)
Theorem C2_coinbase_balance_overwritten `{Collaborators} (c : Blockchain) (b : Block)
    (p : bool) (st st1 : StateDB) (h : ProposedHeader) (fee : Z) :
  proposedHeader b = Some h ->
  processTxs c b p st = (Ok fee, st1) ->
  GetBalance (snd (applyAndValidateBlockState c b p st)) (Coinbase h) = fee / 2
  /\ fee = 0.
Proof.
  intros Hh Htxs. rewrite applyAndValidateBlockState_unfold, Htxs, Hh. simpl.
  split.
  - destruct (negb p && _); simpl;
      by rewrite GetBalance_Precommit, GetBalance_SetBalance_eq.
  - unfold processTxs in Htxs. by apply processTxs_from_fee in Htxs.
Qed.

(** Account 9, the coinbase of [sampleProposal], holds 100 before the block
    and 0 after it. *)
Lemma C2_coinbase_balance_overwritten_witness :
  GetBalance sampleState 9 = 100
  /\ GetBalance (snd (@applyAndValidateBlockState toy sampleChain sampleProposal false
                       sampleState)) 9 = 0 / 2
  /\ 0 = 0.
Proof.
  split; [reflexivity |].
  apply (C2_coinbase_balance_overwritten (H := toy) sampleChain sampleProposal false
           sampleState (SetNonce (AddBalance (SubBalance (SubBalance sampleState 7 4) 7 0) 8 4)
                                 7 2)
           {| ParentHash := @Block_Hash toy sampleGenesis; Height := 2; Time := 100;
              ProposerPubKey := [11; 12]; TxHash := @DeriveSha toy [sampleSend];
              Coinbase := 9; Root := sampleRoot |} 0).
  - reflexivity.
  - vm_compute. reflexivity.
Defined.

(** C3 (nonce advancement).  What the code does: a transaction is applied when
    its nonce is the stored nonce plus 1, and the nonce then stored is the
    nonce of the transaction plus 1: the stored nonce of the sender advances by
    2 (modulo 2^64), not by 1.  [pre] are the transactions of the block before
    [tx], [st1] is the handle they leave. *)
Theorem C3_nonce_advances_by_two `{Collaborators} (c : Blockchain) (b : Block) (p : bool)
    (st st1 st' : StateDB) (pre : list Transaction) (tx : Transaction) (fee fee' : Z) :
  Transactions (body b) = pre ++ [tx] ->
  processTxs_from c 0 pre st = (Ok fee, st1) ->
  processTxs c b p st = (Ok fee', st') ->
  GetNonce st' (fst (Sender tx)) = u64 (GetNonce st1 (fst (Sender tx)) + 2).
Proof.
  intros Htxs Hpre. unfold processTxs. rewrite Htxs, processTxs_from_app.
  rewrite (bind_Ok _ _ _ _ _ Hpre). simpl. unfold bind, ret.
  destruct (processTx c fee tx st1) as [[fee1 | e |] st2] eqn:Htx; try discriminate.
  intros [= <- <-]. apply processTx_Ok_inv in Htx as (Hnonce & -> & _).
  rewrite Hnonce. unfold u64. rewrite Zplus_mod_idemp_l. f_equal. lia.
Qed.

(** The stored nonce of account 7 is 0; after [sampleSend], of nonce 1, it is 2. *)
Lemma C3_nonce_advances_by_two_witness :
  GetNonce sampleState 7 = 0
  /\ GetNonce (snd (@processTxs toy sampleChain sampleProposal false sampleState)) 7
     = u64 (0 + 2).
Proof.
  split; [reflexivity |].
  apply (C3_nonce_advances_by_two (H := toy) sampleChain sampleProposal false sampleState
           sampleState _ [] sampleSend 0 0).
  - reflexivity.
  - reflexivity.
  - vm_compute. reflexivity.
Defined.

(** Two transactions of one sender with consecutive nonces cannot both be
    applied: after the first, the second is asked for a nonce one higher. *)
Example consecutive_nonces_rejected :
  fst (@processTxs toy sampleChain (sampleBlock [sampleSend; sampleGap] emptyHash emptyHash [])
         false sampleState)
  = Err (ErrInvalidTxNonce 3 2).
Proof. vm_compute. reflexivity. Qed.

(** C5 (nonce rejection).  A transaction whose nonce is not the stored nonce of
    its sender plus 1 (Go's [uint64] addition), when its turn comes after the
    transactions [pre] before it, makes [processTxs] fail with the invalid-nonce
    error; [applyBlock] then returns that error with the handle rolled back,
    and [AddBlock] returns an error and leaves the head as it was. *)
Theorem C5_nonce_rejection `{Collaborators} (c : Blockchain) (b : Block) (p : bool)
    (st st1 : StateDB) (pre post : list Transaction) (tx : Transaction) (fee : Z) :
  Transactions (body b) = pre ++ tx :: post ->
  processTxs_from c 0 pre st = (Ok fee, st1) ->
  AccountNonce tx <> u64 (GetNonce st1 (fst (Sender tx)) + 1) ->
  let e := ErrInvalidTxNonce (u64 (GetNonce st1 (fst (Sender tx)) + 1)) (AccountNonce tx) in
  processTxs c b p st = (Err e, st1)
  /\ (IsEmpty b = false -> applyBlock c st b p = (Err e, Reset st, c))
  /\ (IsEmpty b = false -> st = State (appState c) ->
      exists e' c', AddBlock c b = (Err e', c') /\ Head c' = Head c).
Proof.
  intros Htxs Hpre Hnonce e.
  assert (Hfail : processTxs c b p st = (Err e, st1)).
  { unfold processTxs. rewrite Htxs, processTxs_from_app.
    rewrite (bind_Ok _ _ _ _ _ Hpre). simpl.
    apply bind_Err. by apply processTx_bad_nonce. }
  assert (Happly : forall q, applyAndValidateBlockState c b q st = (Err e, st1)).
  { intros q. rewrite applyAndValidateBlockState_unfold.
    unfold processTxs in *. by rewrite Hfail. }
  split_and!.
  - exact Hfail.
  - intros Hne. eapply applyBlock_Err; eauto.
  - intros Hne ->.
    destruct (AddBlock_apply_Err c b e (Reset (State (appState c))) Hne)
      as (e' & c' & Hadd & Hhead & _).
    + eapply applyBlock_Err; eauto.
    + eauto.
Qed.

(** A nonce too high ([sampleGap], 2 for the stored 0) and, in the next lemma, a
    nonce too low. *)
Lemma C5_nonce_rejection_witness :
  let b := sampleBlock [sampleGap] emptyHash emptyHash [] in
  let e := ErrInvalidTxNonce (u64 (GetNonce sampleState (fst (@Sender toy sampleGap)) + 1))
             (AccountNonce sampleGap) in
  @processTxs toy sampleChain b false sampleState = (Err e, sampleState)
  /\ (IsEmpty b = false ->
      @applyBlock toy sampleChain sampleState b false = (Err e, Reset sampleState, sampleChain))
  /\ (IsEmpty b = false -> sampleState = State (appState sampleChain) ->
      exists e' c', @AddBlock toy sampleChain b = (Err e', c') /\ Head c' = Head sampleChain).
Proof.
  apply (C5_nonce_rejection (H := toy) sampleChain
           (sampleBlock [sampleGap] emptyHash emptyHash []) false sampleState sampleState
           [] [] sampleGap 0).
  - reflexivity.
  - reflexivity.
  - vm_compute. discriminate.
Defined.

Example replayed_nonce_rejected :
  @processTxs toy sampleChain (sampleBlock [sampleReplay] emptyHash emptyHash []) false
    sampleState
  = (Err (ErrInvalidTxNonce 1 0), sampleState).
Proof. vm_compute. reflexivity. Qed.

(** ** Handles that hold the same accounts *)

Lemma account_same st1 st2 a : same_accounts st1 st2 -> account st1 a = account st2 a.
Proof. unfold same_accounts, account. by intros ->. Qed.

Lemma update_same st1 st2 a acc :
  same_accounts st1 st2 -> same_accounts (update st1 a acc) (update st2 a acc).
Proof. unfold same_accounts, update; simpl. by intros ->. Qed.

Lemma GetNonce_same st1 st2 a : same_accounts st1 st2 -> GetNonce st1 a = GetNonce st2 a.
Proof. intros Hs. unfold GetNonce. by rewrite (account_same _ _ _ Hs). Qed.

Lemma GetBalance_same st1 st2 a : same_accounts st1 st2 -> GetBalance st1 a = GetBalance st2 a.
Proof. intros Hs. unfold GetBalance. by rewrite (account_same _ _ _ Hs). Qed.

Lemma SetNonce_same st1 st2 a n :
  same_accounts st1 st2 -> same_accounts (SetNonce st1 a n) (SetNonce st2 a n).
Proof. intros Hs. unfold SetNonce. rewrite (account_same _ _ _ Hs). by apply update_same. Qed.

Lemma SetBalance_same st1 st2 a v :
  same_accounts st1 st2 -> same_accounts (SetBalance st1 a v) (SetBalance st2 a v).
Proof. intros Hs. unfold SetBalance. rewrite (account_same _ _ _ Hs). by apply update_same. Qed.

Lemma AddBalance_same st1 st2 a v :
  same_accounts st1 st2 -> same_accounts (AddBalance st1 a v) (AddBalance st2 a v).
Proof.
  intros Hs. unfold AddBalance. rewrite (GetBalance_same _ _ _ Hs). by apply SetBalance_same.
Qed.

Lemma SubBalance_same st1 st2 a v :
  same_accounts st1 st2 -> same_accounts (SubBalance st1 a v) (SubBalance st2 a v).
Proof.
  intros Hs. unfold SubBalance. rewrite (GetBalance_same _ _ _ Hs). by apply SetBalance_same.
Qed.

Lemma Approve_same st1 st2 a :
  same_accounts st1 st2 -> same_accounts (Approve st1 a) (Approve st2 a).
Proof. intros Hs. unfold Approve. rewrite (account_same _ _ _ Hs). by apply update_same. Qed.

#[local] Hint Resolve SetNonce_same SetBalance_same AddBalance_same SubBalance_same
  Approve_same : base_db.

Lemma processTx_same `{Collaborators} c1 c2 fee tx st1 st2 :
  same_accounts st1 st2 ->
  fst (processTx c1 fee tx st1) = fst (processTx c2 fee tx st2)
  /\ same_accounts (snd (processTx c1 fee tx st1)) (snd (processTx c2 fee tx st2)).
Proof.
  intros Hs.
  pose proof (GetNonce_same _ _ (fst (Sender tx)) Hs) as Hn.
  pose proof (GetBalance_same _ _ (fst (Sender tx)) Hs) as Hb.
  destruct (decide (AccountNonce tx = u64 (GetNonce st1 (fst (Sender tx)) + 1))) as [Heq|Hne].
  - rewrite (processTx_good_nonce c1 _ _ _ Heq).
    rewrite Hn in Heq. rewrite (processTx_good_nonce c2 _ _ _ Heq).
    simpl. rewrite Hb. destruct (Type_ tx); simpl.
    + destruct (_ <? 0); simpl; [done |].
      destruct (To tx); simpl; split; auto 10 with base_db.
    + split; auto with base_db.
    + split; auto with base_db.
  - rewrite (processTx_bad_nonce c1 _ _ _ Hne).
    rewrite Hn in Hne. rewrite (processTx_bad_nonce c2 _ _ _ Hne).
    simpl. by rewrite Hn.
Qed.

Lemma processTxs_from_same `{Collaborators} c1 c2 txs : forall fee st1 st2,
  same_accounts st1 st2 ->
  fst (processTxs_from c1 fee txs st1) = fst (processTxs_from c2 fee txs st2)
  /\ same_accounts (snd (processTxs_from c1 fee txs st1)) (snd (processTxs_from c2 fee txs st2)).
Proof.
  induction txs as [|tx txs IH]; intros fee st1 st2 Hs; simpl.
  - done.
  - destruct (processTx_same c1 c2 fee tx st1 st2 Hs) as [Hr Hs'].
    unfold bind.
    destruct (processTx c1 fee tx st1) as [r1 st1'], (processTx c2 fee tx st2) as [r2 st2'].
    simpl in Hr, Hs'. subst r2.
    destruct r1 as [fee' | e |]; simpl; auto.
Qed.

(** C4 (determinism).  The State Transition Engine run by two nodes (two
    chains [c1], [c2], with whatever head, keys, pool and ledger each has) on
    two handles that hold the same accounts, for the same block in the same
    mode, ends with the same outcome and the same accounts, and, where the run
    gets as far as fixing the root, the same root. *)
Theorem C4_determinism `{Collaborators} (c1 c2 : Blockchain) (b : Block) (p : bool)
    (st1 st2 : StateDB) :
  same_accounts st1 st2 ->
  let r1 := applyAndValidateBlockState c1 b p st1 in
  let r2 := applyAndValidateBlockState c2 b p st2 in
  fst r1 = fst r2
  /\ live (snd r1) = live (snd r2)
  /\ (forall fee st1', processTxs c1 b p st1 = (Ok fee, st1') -> IsEmpty b = false ->
      StateDB_Root (snd r1) = StateDB_Root (snd r2)).
Proof.
  intros Hs r1 r2. subst r1 r2.
  rewrite !applyAndValidateBlockState_unfold. unfold processTxs.
  destruct (processTxs_from_same c1 c2 (Transactions (body b)) 0 st1 st2 Hs) as [Hr Hs'].
  destruct (processTxs_from c1 0 (Transactions (body b)) st1) as [r1 st1'].
  destruct (processTxs_from c2 0 (Transactions (body b)) st2) as [r2 st2'].
  simpl in Hr, Hs'. subst r2.
  destruct r1 as [fee | e |]; cbn [fst snd].
  - unfold proposedHeader, IsEmpty. destruct (header b) as [h | h]; cbv zeta.
    + set (s1 := SetBalance (SetBalance st1' _ _) _ _).
      set (s2 := SetBalance (SetBalance st2' _ _) _ _).
      assert (Hfinal : same_accounts s1 s2) by (subst s1 s2; auto with base_db).
      assert (Hroot : StateDB_Root (Precommit s1) = StateDB_Root (Precommit s2)).
      { unfold StateDB_Root, Precommit; cbn [fixed]. f_equal. exact Hfinal. }
      rewrite Hroot.
      destruct (negb p && _); cbn [fst snd]; split_and!; auto.
    + split_and!; [done | exact Hs' | discriminate].
  - split_and!; [done | exact Hs' | discriminate].
  - split_and!; [done | exact Hs' | discriminate].
Qed.

(** The canonical handle of [sampleChain] and the check handle a proposer
    takes of it, after a pending mutation was left in the canonical one. *)
Lemma C4_determinism_witness :
  let st1 := Precommit sampleState in
  let st2 := NewForCheck sampleState in
  let c2 := SetCurrentHead sampleChain sampleProposal in
  let r1 := @applyAndValidateBlockState toy sampleChain sampleProposal false st1 in
  let r2 := @applyAndValidateBlockState toy c2 sampleProposal false st2 in
  fst r1 = fst r2
  /\ live (snd r1) = live (snd r2)
  /\ (forall fee st1', @processTxs toy sampleChain sampleProposal false st1 = (Ok fee, st1') ->
      IsEmpty sampleProposal = false ->
      @StateDB_Root toy (snd r1) = @StateDB_Root toy (snd r2)).
Proof.
  apply (C4_determinism (H := toy) sampleChain (SetCurrentHead sampleChain sampleProposal)
           sampleProposal false (Precommit sampleState) (NewForCheck sampleState)).
  reflexivity.
Defined.

(** ** Rollback *)

Lemma with_State_id c : with_State c (State (appState c)) = c.
Proof. destruct c as [? ? ? ? ? ? ? [? ?]]. reflexivity. Qed.

(** On the canonical handle with nothing pending, a failed [AddBlock] leaves
    the whole chain as it was. *)
Lemma AddBlock_Err_unchanged `{Collaborators} c b e c' :
  clean (State (appState c)) -> AddBlock c b = (Err e, c') -> c' = c.
Proof.
  intros Hclean. unfold AddBlock.
  destruct (validateBlockParentHash c b) as [[] | e1 |]; [| by intros [= _ <-] | discriminate].
  assert (Happly : forall st1 c1 e1,
    applyBlock c (State (appState c)) b false = (Err e1, st1, c1) ->
    with_State c1 st1 = c).
  { intros st1 c1 e1 Ha. apply applyBlock_Err_inv in Ha as (_ & -> & -> & _).
    rewrite (Reset_clean _ Hclean). apply with_State_id. }
  destruct (IsEmpty b).
  - destruct (applyBlock c (State (appState c)) b false) as [[[[] | e1 |] st1] c1] eqn:Ha;
      try discriminate.
    intros [= _ <-]. eapply Happly; eauto.
  - destruct (ValidateProposedBlock c b) as [[] | e1 |]; [| by intros [= _ <-] | discriminate].
    destruct (applyBlock c (State (appState c)) b false) as [[[[] | e1 |] st1] c1] eqn:Ha;
      try discriminate.
    intros [= _ <-]. eapply Happly; eauto.
Qed.

(** C7 (rollback atomicity), as the code has it.  When [applyBlock] returns an
    error, whatever the error and the mode, the handle it returns is the handle
    it was given after [Reset]: its accounts are the accounts as last
    committed, so that every mutation since the last commit is discarded, those
    of the failed application and those that were pending before it began; the
    chain is untouched.  A handle that had nothing pending when the application
    began, as the canonical handle and a fresh check handle have, is returned
    as it was. *)
Theorem C7_rollback `{Collaborators} (c c' : Blockchain) (st st' : StateDB) (b : Block)
    (p : bool) (e : error) :
  applyBlock c st b p = (Err e, st', c') ->
  st' = Reset st /\ c' = c
  /\ live st' = durable st /\ fixed st' = durable st
  /\ durable st' = durable st /\ version st' = version st
  /\ (clean st -> st' = st).
Proof.
  intros Ha. apply applyBlock_Err_inv in Ha as (_ & -> & -> & _).
  split_and!; try reflexivity.
  apply Reset_clean.
Qed.

(** [sampleSend] is applied, then [sampleOverdraft] fails for lack of funds. *)
Lemma C7_rollback_witness :
  @applyBlock toy sampleChain sampleState
    (sampleBlock [sampleSend; sampleOverdraft] emptyHash emptyHash []) false
  = (Err ErrNotEnoughFunds, Reset sampleState, sampleChain)
  /\ Reset sampleState = Reset sampleState /\ sampleChain = sampleChain
  /\ live (Reset sampleState) = durable sampleState
  /\ fixed (Reset sampleState) = durable sampleState
  /\ durable (Reset sampleState) = durable sampleState
  /\ version (Reset sampleState) = version sampleState
  /\ (clean sampleState -> Reset sampleState = sampleState).
Proof.
  split; [vm_compute; reflexivity |].
  apply (C7_rollback (H := toy) sampleChain sampleChain sampleState (Reset sampleState)
           (sampleBlock [sampleSend; sampleOverdraft] emptyHash emptyHash []) false
           ErrNotEnoughFunds).
  vm_compute. reflexivity.
Defined.

(** On [sampleDirty] a block that fails on its nonce returns the handle with
    the accounts as last committed: account 7 held 50 when the application
    began and holds 10 after it, so the handle is not left as it was. *)
Lemma C7_counterexample :
  let b := sampleBlock [sampleGap] emptyHash emptyHash [] in
  fst (fst (@applyBlock toy sampleChain sampleDirty b false)) = Err (ErrInvalidTxNonce 1 2)
  /\ GetBalance sampleDirty 7 = 50
  /\ GetBalance (snd (fst (@applyBlock toy sampleChain sampleDirty b false))) 7 = 10
  /\ snd (fst (@applyBlock toy sampleChain sampleDirty b false)) <> sampleDirty.
Proof.
  cbv zeta. split_and!.
  - vm_compute. reflexivity.
  - vm_compute. reflexivity.
  - vm_compute. reflexivity.
  - intros Heq. apply (f_equal (fun st => GetBalance st 7)) in Heq.
    vm_compute in Heq. discriminate.
Qed.

(** The same failure seen from inside: [processTxs] leaves the payment of
    [sampleSend] in the handle, [applyBlock] returns the handle without it. *)
Example rollback_of_partial_payment :
  let b := sampleBlock [sampleSend; sampleOverdraft] emptyHash emptyHash [] in
  fst (@processTxs toy sampleChain b false sampleState) = Err ErrNotEnoughFunds
  /\ GetBalance (snd (@processTxs toy sampleChain b false sampleState)) 7 = 6
  /\ @applyBlock toy sampleChain sampleState b false
     = (Err ErrNotEnoughFunds, sampleState, sampleChain).
Proof. vm_compute. split_and!; reflexivity. Qed.

(** ** Proofs of the verifiable random function *)

(** [ValidateProposedBlock] returns the error of [ProofToHash]. *)
Lemma ValidateProposedBlock_proof_error `{Collaborators} c b h pk hash e :
  validateBlockParentHash c b = Ok tt ->
  proposedHeader b = Some h ->
  UnmarshalPubkey (ProposerPubKey h) = inr pk ->
  NewVRFVerifier pk = None ->
  ProofToHash pk (GetSeedData c b) (SeedProof (body b)) = (hash, Some e) ->
  ValidateProposedBlock c b = Err e.
Proof.
  intros Hparent Hh Hpk Hver Hproof. unfold ValidateProposedBlock.
  by rewrite Hparent, Hh, Hpk, Hver, Hproof.
Qed.

(** [ValidateProposedBlock] rejects a seed that is not the output of the proof. *)
Lemma ValidateProposedBlock_seed_mismatch `{Collaborators} c b h pk hash r :
  validateBlockParentHash c b = Ok tt ->
  proposedHeader b = Some h ->
  UnmarshalPubkey (ProposerPubKey h) = inr pk ->
  NewVRFVerifier pk = None ->
  ProofToHash pk (GetSeedData c b) (SeedProof (body b)) = (hash, r) ->
  hash <> Block_Seed b ->
  exists e, ValidateProposedBlock c b = Err e.
Proof.
  intros Hparent Hh Hpk Hver Hproof Hseed. unfold ValidateProposedBlock.
  rewrite Hparent, Hh, Hpk, Hver, Hproof.
  destruct r as [e|]; [eauto |].
  rewrite bool_decide_eq_false_2 by exact Hseed. simpl. eauto.
Qed.

(** C6 (proof rejection).  What the code does in [ValidateProposerProof]: the
    error of [ProofToHash] is dropped and only the hash it returned beside the
    error is compared with the claimed output.  A proof that fails
    verification is therefore accepted whenever the claimed output is that
    hash (the zero hash, for an implementation that returns the zero value
    with its error). *)
Theorem C6_proposer_proof_error_ignored `{Collaborators} (c : Blockchain) (proof : bytes)
    (hash : Hash) (pubKeyData : bytes) (pk : ecdsaPublicKey) (e : error) :
  UnmarshalPubkey pubKeyData = inr pk ->
  NewVRFVerifier pk = None ->
  ProofToHash pk (getProposerData c) proof = (hash, Some e) ->
  ValidateProposerProof c proof hash pubKeyData = Ok tt.
Proof.
  intros Hpk Hver Hproof. unfold ValidateProposerProof.
  rewrite Hpk, Hver, Hproof. case_decide; [congruence | reflexivity].
Qed.

(** The empty proof for the all-zero output, under the key of [sampleChain]. *)
Lemma C6_proposer_proof_error_ignored_witness :
  @ValidateProposerProof toy sampleChain [] emptyHash [11; 12] = Ok tt.
Proof.
  apply (C6_proposer_proof_error_ignored (H := toy) sampleChain [] emptyHash [11; 12]
           {| X := 11; Y := 12 |} (ErrCollaborator 3)).
  - reflexivity.
  - reflexivity.
  - vm_compute. reflexivity.
Defined.

(** ** The funds check of a payment *)

(** C8 (insufficient-funds boundary), as the code has it.  For a payment with
    the right nonce and a recipient: when amount plus fee is the balance of the
    sender, the payment is applied, and the balance of the sender is then 0 if
    the recipient is another account, and the amount if the sender pays
    itself (the amount is debited, then credited back); when amount plus fee
    is the balance plus 1, [processTxs] fails with the not-enough-funds error
    and leaves the handle as it was. *)
Theorem C8_funds_boundary `{Collaborators} (c : Blockchain) (b : Block) (p : bool)
    (st : StateDB) (tx : Transaction) (to : Address) :
  Transactions (body b) = [tx] ->
  Type_ tx = SendTx ->
  To tx = Some to ->
  AccountNonce tx = u64 (GetNonce st (fst (Sender tx)) + 1) ->
  let sender := fst (Sender tx) in
  (Amount tx + getTxFee c tx = GetBalance st sender ->
   exists st', processTxs c b p st = (Ok 0, st')
     /\ GetBalance st' sender = (if decide (to = sender) then Amount tx else 0)
     /\ (to <> sender -> GetBalance st' to = GetBalance st to + Amount tx))
  /\ (Amount tx + getTxFee c tx = GetBalance st sender + 1 ->
      processTxs c b p st = (Err ErrNotEnoughFunds, st)).
Proof.
  intros Htxs Htype Hto Hnonce sender. unfold processTxs. rewrite Htxs. simpl.
  unfold bind, ret. rewrite (processTx_good_nonce _ _ _ _ Hnonce), Htype, Hto. simpl.
  fold sender. unfold getTxFee. split.
  - intros Hbal.
    destruct (Z.ltb_spec (GetBalance st sender - Amount tx - 0) 0) as [Hlt | _]; [lia |].
    eexists. split; [reflexivity |].
    rewrite !GetBalance_SetNonce. unfold AddBalance, SubBalance.
    destruct (decide (to = sender)) as [-> | Hne].
    + split; [| done]. rewrite !GetBalance_SetBalance_eq. lia.
    + split.
      * rewrite GetBalance_SetBalance_ne by done. rewrite !GetBalance_SetBalance_eq. lia.
      * intros _. rewrite GetBalance_SetBalance_eq.
        rewrite !GetBalance_SetBalance_ne by done. reflexivity.
  - intros Hbal.
    destruct (Z.ltb_spec (GetBalance st sender - Amount tx - 0) 0) as [_ | Hge]; [| lia].
    reflexivity.
Qed.

Lemma C8_funds_boundary_witness :
  let b := sampleBlock [sampleSendAll] emptyHash emptyHash [] in
  let sender := fst (@Sender toy sampleSendAll) in
  (Amount sampleSendAll + getTxFee sampleChain sampleSendAll = GetBalance sampleState sender ->
   exists st', @processTxs toy sampleChain b false sampleState = (Ok 0, st')
     /\ GetBalance st' sender = (if decide (8 = sender) then Amount sampleSendAll else 0)
     /\ (8 <> sender -> GetBalance st' 8 = GetBalance sampleState 8 + Amount sampleSendAll))
  /\ (Amount sampleSendAll + getTxFee sampleChain sampleSendAll
      = GetBalance sampleState sender + 1 ->
      @processTxs toy sampleChain b false sampleState = (Err ErrNotEnoughFunds, sampleState)).
Proof.
  apply (C8_funds_boundary (H := toy) sampleChain
           (sampleBlock [sampleSendAll] emptyHash emptyHash []) false sampleState
           sampleSendAll 8); reflexivity.
Defined.

(** Account 7 holds 10: paying 10 to account 8 leaves it 0, paying 11 fails. *)
Example funds_boundary_other_recipient :
  GetBalance (snd (@processTxs toy sampleChain
                     (sampleBlock [sampleSendAll] emptyHash emptyHash []) false sampleState)) 7
  = 0
  /\ @processTxs toy sampleChain (sampleBlock [sampleSendTooMuch] emptyHash emptyHash [])
       false sampleState
     = (Err ErrNotEnoughFunds, sampleState).
Proof. vm_compute. split; reflexivity. Qed.

(** Account 7 holds 10 and pays 10 to itself: amount plus fee is the balance,
    the payment is applied, and the balance is 10 afterwards, not 0. *)
Lemma C8_counterexample :
  let b := sampleBlock [sampleSelfSend] emptyHash emptyHash [] in
  Type_ sampleSelfSend = SendTx
  /\ Amount sampleSelfSend + getTxFee sampleChain sampleSelfSend = GetBalance sampleState 7
  /\ fst (@processTxs toy sampleChain b false sampleState) = Ok 0
  /\ GetBalance (snd (@processTxs toy sampleChain b false sampleState)) 7 = 10
  /\ GetBalance (snd (@processTxs toy sampleChain b false sampleState)) 7 <> 0.
Proof. vm_compute. split_and!; (reflexivity || discriminate). Qed.

(** ** Seeds of empty and of proposed blocks *)

Lemma GenerateEmptyBlock_template `{Collaborators} c :
  GenerateEmptyBlock c
  = with_BlockSeed (emptyBlockTemplate c)
      (Keccak256Hash (GetSeedData c (emptyBlockTemplate c))) [].
Proof. reflexivity. Qed.

Lemma ProposeBlock_template `{Collaborators} c hash proof now blk :
  ProposeBlock c hash proof now = Ok blk ->
  exists root,
    blk = with_BlockSeed (proposalTemplate c now root)
            (fst (Evaluate (vrfSigner c) (GetSeedData c (proposalTemplate c now root))))
            (snd (Evaluate (vrfSigner c) (GetSeedData c (proposalTemplate c now root)))).
Proof.
  unfold ProposeBlock.
  destruct (applyBlock _ _ _ true) as [[[[] | e |] checkState] c1]; try discriminate.
  cbn [Height ParentHash Time ProposerPubKey TxHash Coinbase body].
  fold (proposalTemplate c now (StateDB_Root checkState)).
  destruct (Evaluate _ _) as [seed seedProof] eqn:Heval.
  intros [= <-]. exists (StateDB_Root checkState).
  unfold proposalTemplate in *. rewrite Heval. reflexivity.
Qed.

(** C9 (seed of an empty block), as the code has it.  The seed message of an
    empty block is built by [GetSeedData], the function that builds the seed
    message of a proposed block (parent seed, height, block hash), over the
    block before its seed is set.  The seed of the empty block is the
    Keccak-256 hash of that message; the seed of a proposed block is the output
    of the verifiable random function under the key of the proposer, and comes
    with a proof. *)
Theorem C9_seed_derivation `{Collaborators} (c : Blockchain) (hash : Hash) (proof : bytes)
    (now : Z) :
  Block_Seed (GenerateEmptyBlock c) = Keccak256Hash (GetSeedData c (emptyBlockTemplate c))
  /\ SeedProof (body (GenerateEmptyBlock c)) = []
  /\ match ProposeBlock c hash proof now with
     | Ok blk =>
         exists root,
           Block_Seed blk
           = fst (Evaluate (vrfSigner c) (GetSeedData c (proposalTemplate c now root)))
           /\ SeedProof (body blk)
              = snd (Evaluate (vrfSigner c) (GetSeedData c (proposalTemplate c now root)))
           /\ Block_Root blk = root
     | _ => True
     end.
Proof.
  split_and!; [reflexivity | reflexivity |].
  destruct (ProposeBlock c hash proof now) as [blk | e |] eqn:Hp; [| done | done].
  apply ProposeBlock_template in Hp as [root ->]. exists root.
  split_and!; reflexivity.
Qed.

(** On [sampleChain] the seed of the empty block is the hash of the seed
    message, and is not the output of the verifiable random function on that
    message under the key of the chain. *)
Lemma C9_counterexample :
  let m := @GetSeedData toy sampleChain (@emptyBlockTemplate toy sampleChain) in
  Block_Seed (@GenerateEmptyBlock toy sampleChain) = @Keccak256Hash toy m
  /\ Block_Seed (@GenerateEmptyBlock toy sampleChain)
     <> fst (@Evaluate toy (vrfSigner sampleChain) m).
Proof. vm_compute. split; [reflexivity | discriminate]. Qed.

(** ** The head of the chain *)

Lemma insertBlock_Head `{Collaborators} c b : Head (insertBlock c b) = b.
Proof. reflexivity. Qed.

Lemma insertBlock_repo_head `{Collaborators} c b :
  head (chain_repo (insertBlock c b)) = Some (header b).
Proof. reflexivity. Qed.

Lemma u64_idemp z : u64 (u64 z) = u64 z.
Proof. unfold u64. apply Z.mod_mod. lia. Qed.

Lemma u64_pred_succ z : u64 (u64 (z - 1) + 1) = u64 z.
Proof. unfold u64. rewrite Zplus_mod_idemp_l. f_equal. lia. Qed.

(** [applyBlock] in checking mode touches neither head nor ledger, and on
    success returns the handle committed. *)
Lemma applyBlock_Ok_inv `{Collaborators} c st b st' c' :
  applyBlock c st b false = (Ok tt, st', c') ->
  Head c' = Head c /\ chain_repo c' = chain_repo c
  /\ durable st' = live st' /\ fixed st' = live st'
  /\ (IsEmpty b = true -> live st' = live st).
Proof.
  unfold applyBlock. destruct (IsEmpty b); simpl.
  - intros [= <- <-]. by split_and!.
  - destruct (applyAndValidateBlockState c b false st) as [[[] | e |] st1]; try discriminate.
    simpl. intros [= <- <-]. by split_and!.
Qed.

Lemma applyBlock_not_Ok `{Collaborators} c st b r st' c' :
  applyBlock c st b false = (r, st', c') -> r <> Ok tt -> c' = c.
Proof.
  unfold applyBlock. destruct (IsEmpty b); simpl.
  - intros [= <- <- <-]. done.
  - destruct (applyAndValidateBlockState c b false st) as [[[] | e |] st1]; simpl.
    + intros [= <- <- <-]. done.
    + by intros [= <- <- <-].
    + by intros [= <- <- <-].
Qed.

Lemma GenerateEmptyBlock_ext `{Collaborators} c1 c2 :
  Head c1 = Head c2 ->
  StateDB_Root (State (appState c1)) = StateDB_Root (State (appState c2)) ->
  GenerateEmptyBlock c1 = GenerateEmptyBlock c2.
Proof.
  intros Hhead Hroot. unfold GenerateEmptyBlock, GetSeedData. by rewrite Hhead, Hroot.
Qed.

Lemma GenerateEmptyBlock_Height `{Collaborators} c :
  Block_Height (GenerateEmptyBlock c) = u64 (Block_Height (Head c) + 1).
Proof. reflexivity. Qed.

Lemma GenerateEmptyBlock_ParentHash `{Collaborators} c :
  Header_ParentHash (header (GenerateEmptyBlock c)) = Block_Hash (Head c).
Proof. reflexivity. Qed.

(** C10 (head advancement), as the code has it.  When [AddBlock] accepts a
    proposed block, the head is that block.  When it accepts an empty block,
    the head is the empty block that [GenerateEmptyBlock] builds on the old
    head over the state just committed, not the block that was passed: it has
    the parent hash and, modulo 2^64, the height of the block passed, and a
    root and a seed of its own.  In both cases the head moves once: its height
    is the old height plus 1 (modulo 2^64), its parent hash is the hash of the
    old head, and the head entry of the ledger is its header.  When [AddBlock]
    does not accept the block, head and ledger are as they were. *)
Theorem C10_head_advancement `{Collaborators} (c c' : Blockchain) (b : Block) (r : res unit) :
  AddBlock c b = (r, c') ->
  match r with
  | Ok _ =>
      Head c'
      = (if IsEmpty b
         then GenerateEmptyBlock (with_State c (snd (Commit (State (appState c)))))
         else b)
      /\ u64 (Block_Height (Head c')) = u64 (Block_Height (Head c) + 1)
      /\ u64 (Block_Height (Head c')) = u64 (Block_Height b)
      /\ Header_ParentHash (header (Head c')) = Block_Hash (Head c)
      /\ Header_ParentHash (header (Head c')) = Header_ParentHash (header b)
      /\ head (chain_repo c') = Some (header (Head c'))
  | _ => Head c' = Head c /\ chain_repo c' = chain_repo c
  end.
Proof.
  unfold AddBlock.
  destruct (validateBlockParentHash c b) as [[] | e |] eqn:Hparent;
    [| by intros [= <- <-] | by intros [= <- <-]].
  apply validateBlockParentHash_Ok in Hparent as [Hheight Hhash].
  assert (Hh : u64 (Block_Height (Head c) + 1) = u64 (Block_Height b))
    by (rewrite Hheight; apply u64_pred_succ).
  destruct (IsEmpty b) eqn:Hempty.
  - destruct (applyBlock c (State (appState c)) b false) as [[r1 st1] c1] eqn:Ha.
    destruct r1 as [[] | e |].
    + intros [= <- <-].
      assert (Hc1 : Head c1 = Head c) by (apply applyBlock_Ok_inv in Ha; tauto).
      assert (Hst1 : st1 = snd (Commit (State (appState c)))).
      { revert Ha. unfold applyBlock. rewrite Hempty. simpl. by intros [= <- _]. }
      rewrite insertBlock_Head, insertBlock_repo_head.
      rewrite (GenerateEmptyBlock_ext (with_State c1 st1)
                 (with_State c (snd (Commit (State (appState c))))))
        by (subst st1; first [exact Hc1 | reflexivity]).
      rewrite GenerateEmptyBlock_Height, GenerateEmptyBlock_ParentHash.
      change (Head (with_State c (snd (Commit (State (appState c)))))) with (Head c).
      rewrite u64_idemp. split_and!; try reflexivity; congruence.
    + intros [= <- <-]. apply applyBlock_not_Ok in Ha as ->; done.
    + intros [= <- <-]. apply applyBlock_not_Ok in Ha as ->; done.
  - destruct (ValidateProposedBlock c b) as [[] | e |];
      [| by intros [= <- <-] | by intros [= <- <-]].
    destruct (applyBlock c (State (appState c)) b false) as [[r1 st1] c1] eqn:Ha.
    destruct r1 as [[] | e |].
    + intros [= <- <-]. rewrite insertBlock_Head, insertBlock_repo_head.
      split_and!; try reflexivity; congruence.
    + intros [= <- <-]. apply applyBlock_not_Ok in Ha as ->; done.
    + intros [= <- <-]. apply applyBlock_not_Ok in Ha as ->; done.
Qed.

Lemma C10_head_advancement_witness :
  let c' := snd (@AddBlock toy sampleChain sampleProposal) in
  Head c' = sampleProposal
  /\ u64 (Block_Height (Head c')) = u64 (Block_Height (Head sampleChain) + 1)
  /\ u64 (Block_Height (Head c')) = u64 (Block_Height sampleProposal)
  /\ Header_ParentHash (header (Head c')) = @Block_Hash toy (Head sampleChain)
  /\ Header_ParentHash (header (Head c')) = Header_ParentHash (header sampleProposal)
  /\ head (chain_repo c') = Some (header (Head c')).
Proof.
  exact (C10_head_advancement (H := toy) sampleChain
           (snd (@AddBlock toy sampleChain sampleProposal)) sampleProposal (Ok tt)
           ltac:(vm_compute; reflexivity)).
Defined.

(** [sampleEmpty], an empty block that claims the all-zero root and carries no
    seed, is accepted; the head is afterwards the empty block the chain has
    built itself, which is another block. *)
Lemma C10_counterexample :
  fst (@AddBlock toy sampleChain sampleEmpty) = Ok tt
  /\ Head (snd (@AddBlock toy sampleChain sampleEmpty)) = @GenerateEmptyBlock toy sampleChain
  /\ Head (snd (@AddBlock toy sampleChain sampleEmpty)) <> sampleEmpty.
Proof. vm_compute. split_and!; (reflexivity || discriminate). Qed.

Lemma u64_succ_pred z : u64 (u64 (z + 1) - 1) = u64 z.
Proof. unfold u64. rewrite Zminus_mod_idemp_l. f_equal. lia. Qed.

(** The empty block a chain builds is accepted by that chain, and is then its
    head, when the canonical handle has nothing pending. *)
Lemma AddBlock_GenerateEmptyBlock `{Collaborators} c :
  clean (State (appState c)) ->
  0 <= Block_Height (Head c) < 2 ^ 64 ->
  fst (AddBlock c (GenerateEmptyBlock c)) = Ok tt
  /\ Head (snd (AddBlock c (GenerateEmptyBlock c))) = GenerateEmptyBlock c.
Proof.
  intros [Hlive Hfixed] Hrange. unfold AddBlock.
  assert (Hparent : validateBlockParentHash c (GenerateEmptyBlock c) = Ok tt).
  { unfold validateBlockParentHash.
    rewrite GenerateEmptyBlock_Height, GenerateEmptyBlock_ParentHash, u64_succ_pred.
    unfold u64. rewrite Z.mod_small by exact Hrange.
    repeat case_decide; congruence. }
  rewrite Hparent.
  change (IsEmpty (GenerateEmptyBlock c)) with true. cbv iota.
  unfold applyBlock.
  change (IsEmpty (GenerateEmptyBlock c)) with true. simpl.
  split; [reflexivity |].
  apply GenerateEmptyBlock_ext; [reflexivity |].
  unfold StateDB_Root; simpl. congruence.
Qed.

(** ** Further facts about the pipeline *)

(** What [replayRoot] is: the hash of the accounts after the transactions and
    the two writes to the coinbase address. *)
Lemma replayRoot_spec `{Collaborators} c st b r :
  replayRoot c st b = Some r <->
  exists fee st1 h,
    processTxs c b true st = (Ok fee, st1)
    /\ proposedHeader b = Some h
    /\ r = StateRoot (live (SetBalance (SetBalance st1 (Coinbase h) BlockReward)
                                      (Coinbase h) (fee / 2))).
Proof.
  unfold replayRoot. rewrite applyAndValidateBlockState_unfold.
  destruct (processTxs c b true st) as [[fee | e |] st1].
  - destruct (proposedHeader b) as [h|]; simpl.
    + split.
      * intros [= <-]. eauto 10.
      * intros (fee' & st1' & h' & [= <- <-] & [= <-] & ->). reflexivity.
    + split; [discriminate |]. by intros (? & ? & ? & _ & ? & _).
  - split; [discriminate |]. by intros (? & ? & ? & ? & _).
  - split; [discriminate |]. by intros (? & ? & ? & ? & _).
Qed.

(** A proposed block that [AddBlock] accepts claims the root of its replay. *)
Lemma AddBlock_accepted_root `{Collaborators} c b c' :
  AddBlock c b = (Ok tt, c') -> IsEmpty b = false ->
  replayRoot c (State (appState c)) b = Some (Block_Root b).
Proof.
  unfold AddBlock.
  destruct (validateBlockParentHash c b) as [[] | e |]; try discriminate.
  intros Hadd Hne. rewrite Hne in Hadd.
  destruct (ValidateProposedBlock c b) as [[] | e |]; try discriminate.
  destruct (applyBlock c (State (appState c)) b false) as [[r1 st1] c1] eqn:Ha.
  destruct r1 as [[] | e |]; try discriminate.
  clear Hadd. revert Ha. unfold applyBlock, replayRoot. rewrite Hne. simpl.
  rewrite !applyAndValidateBlockState_unfold. unfold processTxs.
  destruct (processTxs_from c 0 (Transactions (body b)) (State (appState c)))
    as [[fee | e |] st2]; try discriminate.
  destruct (proposedHeader b) as [h|]; simpl; [| discriminate].
  case_bool_decide as Hroot; simpl; [| discriminate].
  intros _. by rewrite Hroot.
Qed.

(** The canonical handle has nothing pending after [AddBlock], accepted or
    rejected, when it had nothing pending before. *)
Lemma AddBlock_clean `{Collaborators} c b r c' :
  clean (State (appState c)) -> AddBlock c b = (r, c') -> r <> Panic ->
  clean (State (appState c')).
Proof.
  intros Hclean Hadd Hr. destruct r as [[] | e |]; [| | done].
  - revert Hadd. unfold AddBlock.
    destruct (validateBlockParentHash c b) as [[] | e |]; try discriminate.
    destruct (IsEmpty b).
    + destruct (applyBlock c (State (appState c)) b false) as [[r1 st1] c1] eqn:Ha.
      destruct r1 as [[] | e |]; try discriminate.
      intros [= <-]. apply applyBlock_Ok_inv in Ha as (_ & _ & Hd & Hf & _).
      split; simpl; congruence.
    + destruct (ValidateProposedBlock c b) as [[] | e |]; try discriminate.
      destruct (applyBlock c (State (appState c)) b false) as [[r1 st1] c1] eqn:Ha.
      destruct r1 as [[] | e |]; try discriminate.
      intros [= <-]. apply applyBlock_Ok_inv in Ha as (_ & _ & Hd & Hf & _).
      split; simpl; congruence.
  - by rewrite (AddBlock_Err_unchanged _ _ _ _ Hclean Hadd).
Qed.

(** Where the stored nonce is below the largest [uint64], Go's [+ 1] is the
    successor: every nonce other than the stored nonce plus 1 is rejected. *)
Lemma processTx_bad_nonce_no_wrap `{Collaborators} c fee tx st :
  0 <= GetNonce st (fst (Sender tx)) < 2 ^ 64 - 1 ->
  AccountNonce tx <> GetNonce st (fst (Sender tx)) + 1 ->
  processTx c fee tx st
  = (Err (ErrInvalidTxNonce (GetNonce st (fst (Sender tx)) + 1) (AccountNonce tx)), st).
Proof.
  intros Hrange Hne.
  assert (Hsmall : u64 (GetNonce st (fst (Sender tx)) + 1) = GetNonce st (fst (Sender tx)) + 1)
    by (unfold u64; apply Z.mod_small; lia).
  rewrite <- Hsmall at 1. apply processTx_bad_nonce. by rewrite Hsmall.
Qed.

(** A payment without recipient: the nil pointer is dereferenced after the
    sender was debited; the call panics and nothing rolls the debit back. *)
Example payment_without_recipient :
  let tx := {| AccountNonce := 1; Type_ := SendTx; To := None; Amount := 4;
               Signature := [7] |} in
  let b := sampleBlock [tx] emptyHash emptyHash [] in
  fst (fst (@applyBlock toy sampleChain sampleState b false)) = Panic
  /\ GetBalance (snd (fst (@applyBlock toy sampleChain sampleState b false))) 7 = 6.
Proof. vm_compute. split; reflexivity. Qed.

(** * More of the pipeline *)

(** ** What the transactions of a block do to the accounts *)

Lemma totalBalance_insert (m : gmap Z Account) a acc :
  totalBalance (<[a := acc]> m)
  = totalBalance m - Balance (default emptyAccount (m !! a)) + Balance acc.
Proof.
  unfold totalBalance. destruct (m !! a) as [old|] eqn:Hlookup; simpl.
  - rewrite <- insert_delete_eq.
    rewrite map_fold_insert_L; [| intros; lia | apply lookup_delete_eq].
    rewrite (map_fold_delete_L _ _ a old m); [lia | intros; lia | exact Hlookup].
  - rewrite map_fold_insert_L; [lia | intros; lia | exact Hlookup].
Qed.

Lemma totalBalance_update st a acc :
  totalBalance (live (update st a acc))
  = totalBalance (live st) - Balance (account st a) + Balance acc.
Proof. unfold update, account; simpl. apply totalBalance_insert. Qed.

Lemma totalBalance_SetNonce st a n :
  totalBalance (live (SetNonce st a n)) = totalBalance (live st).
Proof. unfold SetNonce. rewrite totalBalance_update. simpl. lia. Qed.

Lemma totalBalance_Approve st a :
  totalBalance (live (Approve st a)) = totalBalance (live st).
Proof. unfold Approve. rewrite totalBalance_update. simpl. lia. Qed.

Lemma totalBalance_SetBalance st a v :
  totalBalance (live (SetBalance st a v)) = totalBalance (live st) - GetBalance st a + v.
Proof. unfold SetBalance, GetBalance. rewrite totalBalance_update. simpl. lia. Qed.

Lemma totalBalance_AddBalance st a v :
  totalBalance (live (AddBalance st a v)) = totalBalance (live st) + v.
Proof. unfold AddBalance. rewrite totalBalance_SetBalance. lia. Qed.

Lemma totalBalance_SubBalance st a v :
  totalBalance (live (SubBalance st a v)) = totalBalance (live st) - v.
Proof. unfold SubBalance. rewrite totalBalance_SetBalance. lia. Qed.

Lemma processTx_totalBalance `{Collaborators} c fee tx st r st' :
  processTx c fee tx st = (r, st') -> r <> Panic ->
  totalBalance (live st') = totalBalance (live st).
Proof.
  destruct (decide (AccountNonce tx = u64 (GetNonce st (fst (Sender tx)) + 1))) as [Heq|Hne].
  - rewrite (processTx_good_nonce _ _ _ _ Heq). simpl. destruct (Type_ tx).
    + destruct (_ <? 0); [by intros [= <- <-] |].
      destruct (To tx) as [to|]; intros [= <- <-] Hr; [| done].
      rewrite totalBalance_SetNonce, totalBalance_AddBalance, !totalBalance_SubBalance. lia.
    + intros [= <- <-] _. by rewrite totalBalance_SetNonce.
    + intros [= <- <-] _. by rewrite totalBalance_SetNonce, totalBalance_Approve.
  - rewrite (processTx_bad_nonce _ _ _ _ Hne). by intros [= <- <-].
Qed.

Lemma processTxs_from_totalBalance `{Collaborators} c txs : forall fee st r st',
  processTxs_from c fee txs st = (r, st') -> r <> Panic ->
  totalBalance (live st') = totalBalance (live st).
Proof.
  induction txs as [|tx txs IH]; intros fee st r st'; simpl.
  - by intros [= <- <-].
  - unfold bind. destruct (processTx c fee tx st) as [[fee' | e |] st1] eqn:Htx.
    + intros Hrest Hr. rewrite (IH _ _ _ _ Hrest Hr).
      eapply processTx_totalBalance; [exact Htx | done].
    + intros [= <- <-] _. eapply processTx_totalBalance; [exact Htx | done].
    + by intros [= <- <-].
Qed.

(** X1 (conservation).  The transactions of a block move balances between
    accounts and neither create nor destroy any: unless the run panics, the sum
    of all balances after [processTxs] is the sum before, whether the run
    succeeded or stopped at an error with part of the block applied. *)
Theorem X1_processTxs_conserves_balances `{Collaborators} (c : Blockchain) (b : Block)
    (p : bool) (st st' : StateDB) (r : res Z) :
  processTxs c b p st = (r, st') ->
  r <> Panic ->
  totalBalance (live st') = totalBalance (live st).
Proof. unfold processTxs. apply processTxs_from_totalBalance. Qed.

Lemma X1_processTxs_conserves_balances_witness :
  totalBalance (live sampleState) = 110
  /\ totalBalance
       (live (snd (@processTxs toy sampleChain
                     (sampleBlock [sampleSend; sampleOverdraft] emptyHash emptyHash [])
                     false sampleState)))
     = totalBalance (live sampleState).
Proof.
  split; [vm_compute; reflexivity |].
  apply (X1_processTxs_conserves_balances (H := toy) sampleChain
           (sampleBlock [sampleSend; sampleOverdraft] emptyHash emptyHash []) false
           sampleState _ (Err ErrNotEnoughFunds)).
  - vm_compute. reflexivity.
  - discriminate.
Defined.

(** *** Accounts a block does not name *)

Lemma processTx_frame `{Collaborators} c fee tx st r st' a :
  processTx c fee tx st = (r, st') -> ~ touches tx a -> account st' a = account st a.
Proof.
  intros Htx Hno.
  assert (Hs : fst (Sender tx) <> a) by (intros <-; apply Hno; by left).
  revert Htx.
  destruct (decide (AccountNonce tx = u64 (GetNonce st (fst (Sender tx)) + 1))) as [Heq|Hne].
  - rewrite (processTx_good_nonce _ _ _ _ Heq). simpl.
    destruct (Type_ tx) eqn:Htype.
    + destruct (_ <? 0); [by intros [= <- <-] |].
      destruct (To tx) as [to|] eqn:Hto; intros [= <- <-].
      * assert (to <> a) by (intros <-; apply Hno; by right).
        unfold SetNonce, AddBalance, SubBalance, SetBalance.
        by rewrite !account_update_ne.
      * unfold SubBalance, SetBalance. by rewrite !account_update_ne.
    + intros [= <- <-]. unfold SetNonce. by rewrite account_update_ne.
    + intros [= <- <-]. unfold SetNonce, Approve. by rewrite !account_update_ne.
  - rewrite (processTx_bad_nonce _ _ _ _ Hne). by intros [= <- <-].
Qed.

Lemma processTxs_from_frame `{Collaborators} c a txs : forall fee st r st',
  processTxs_from c fee txs st = (r, st') ->
  Forall (fun tx => ~ touches tx a) txs ->
  account st' a = account st a.
Proof.
  induction txs as [|tx txs IH]; intros fee st r st'; simpl.
  - by intros [= <- <-].
  - intros Hrun Hall. apply Forall_cons in Hall as [Htx Hall]. revert Hrun.
    unfold bind. destruct (processTx c fee tx st) as [[fee' | e |] st1] eqn:Hstep.
    + intros Hrest. rewrite (IH _ _ _ _ Hrest Hall). eapply processTx_frame; eauto.
    + intros [= <- <-]. eapply processTx_frame; eauto.
    + intros [= <- <-]. eapply processTx_frame; eauto.
Qed.

(** X2 (frame).  An address that is neither the sender of a transaction of the
    block nor the recipient of one of its payments keeps its account (balance,
    nonce, identity) through [processTxs], whatever the outcome. *)
Theorem X2_processTxs_frame `{Collaborators} (c : Blockchain) (b : Block) (p : bool)
    (st st' : StateDB) (r : res Z) (a : Address) :
  processTxs c b p st = (r, st') ->
  Forall (fun tx => ~ touches tx a) (Transactions (body b)) ->
  account st' a = account st a.
Proof. unfold processTxs. apply processTxs_from_frame. Qed.

(** Account 9 is not named by [sampleSend], which account 7 pays to account 8. *)
Lemma X2_processTxs_frame_witness :
  account (snd (@processTxs toy sampleChain sampleProposal false sampleState)) 9
  = account sampleState 9.
Proof.
  apply (X2_processTxs_frame (H := toy) sampleChain sampleProposal false sampleState _
           (Ok 0) 9).
  - vm_compute. reflexivity.
  - repeat constructor. vm_compute. intros [Hs | [_ Hto]]; discriminate.
Defined.

(** *** Balances stay non-negative *)

Lemma nonneg_GetBalance st a : nonneg st -> 0 <= GetBalance st a.
Proof.
  intros Hst. unfold GetBalance, account.
  destruct (live st !! a) as [acc|] eqn:Hlookup; simpl; [| done].
  exact (Hst a acc Hlookup).
Qed.

Lemma nonneg_update st a acc : nonneg st -> 0 <= Balance acc -> nonneg (update st a acc).
Proof. intros Hst Hacc. unfold nonneg, update; simpl. by apply map_Forall_insert_2. Qed.

Lemma nonneg_SetBalance st a v : nonneg st -> 0 <= v -> nonneg (SetBalance st a v).
Proof. intros. by apply nonneg_update. Qed.

Lemma nonneg_SetNonce st a n : nonneg st -> nonneg (SetNonce st a n).
Proof. intros Hst. apply nonneg_update; [done |]. apply (nonneg_GetBalance _ a Hst). Qed.

Lemma nonneg_Approve st a : nonneg st -> nonneg (Approve st a).
Proof. intros Hst. apply nonneg_update; [done |]. apply (nonneg_GetBalance _ a Hst). Qed.

Lemma processTx_nonneg `{Collaborators} c fee tx st r st' :
  processTx c fee tx st = (r, st') -> 0 <= Amount tx -> nonneg st -> nonneg st'.
Proof.
  intros Htx Hamount Hst. revert Htx.
  destruct (decide (AccountNonce tx = u64 (GetNonce st (fst (Sender tx)) + 1))) as [Heq|Hne].
  - rewrite (processTx_good_nonce _ _ _ _ Heq). simpl. destruct (Type_ tx).
    + destruct (Z.ltb_spec (GetBalance st (fst (Sender tx)) - Amount tx - 0) 0)
        as [_ | Hfunds]; [by intros [= <- <-] |].
      assert (Hdebit : nonneg (SubBalance (SubBalance st (fst (Sender tx)) (Amount tx))
                                          (fst (Sender tx)) 0)).
      { unfold SubBalance at 1. apply nonneg_SetBalance.
        - unfold SubBalance. apply nonneg_SetBalance; [done | lia].
        - unfold SubBalance. rewrite GetBalance_SetBalance_eq. lia. }
      destruct (To tx) as [to|]; intros [= <- <-]; [| exact Hdebit].
      apply nonneg_SetNonce. unfold AddBalance. apply nonneg_SetBalance; [done |].
      pose proof (nonneg_GetBalance _ to Hdebit). lia.
    + intros [= <- <-]. by apply nonneg_SetNonce.
    + intros [= <- <-]. by apply nonneg_SetNonce, nonneg_Approve.
  - rewrite (processTx_bad_nonce _ _ _ _ Hne). by intros [= <- <-].
Qed.

Lemma processTxs_from_nonneg `{Collaborators} c txs : forall fee st r st',
  processTxs_from c fee txs st = (r, st') ->
  Forall (fun tx => 0 <= Amount tx) txs -> nonneg st -> nonneg st'.
Proof.
  induction txs as [|tx txs IH]; intros fee st r st'; simpl.
  - by intros [= <- <-].
  - intros Hrun Hall Hst. apply Forall_cons in Hall as [Htx Hall]. revert Hrun.
    unfold bind. destruct (processTx c fee tx st) as [[fee' | e |] st1] eqn:Hstep;
      pose proof (processTx_nonneg _ _ _ _ _ _ Hstep Htx Hst) as Hst1.
    + intros Hrest. eapply IH; eauto.
    + by intros [= <- <-].
    + by intros [= <- <-].
Qed.

(** X3 (no overdraft).  When no account holds a negative balance and no
    transaction of the block has a negative amount, no account holds a
    negative balance after [processTxs], whatever the outcome: the funds check
    of a payment is made on the balance the transactions before it left. *)
Theorem X3_processTxs_no_overdraft `{Collaborators} (c : Blockchain) (b : Block) (p : bool)
    (st st' : StateDB) (r : res Z) :
  processTxs c b p st = (r, st') ->
  Forall (fun tx => 0 <= Amount tx) (Transactions (body b)) ->
  nonneg st ->
  nonneg st'.
Proof. unfold processTxs. apply processTxs_from_nonneg. Qed.

Lemma X3_processTxs_no_overdraft_witness :
  nonneg (snd (@processTxs toy sampleChain
                 (sampleBlock [sampleSendAll; sampleOverdraft] emptyHash emptyHash [])
                 false sampleState)).
Proof.
  apply (X3_processTxs_no_overdraft (H := toy) sampleChain
           (sampleBlock [sampleSendAll; sampleOverdraft] emptyHash emptyHash []) false
           sampleState _ (Err ErrNotEnoughFunds)).
  - vm_compute. reflexivity.
  - repeat constructor; vm_compute; discriminate.
  - unfold nonneg. cbn [live sampleState]. unfold sampleAccounts.
    apply map_Forall_insert_2; [simpl; lia |].
    apply map_Forall_insert_2; [simpl; lia |].
    apply map_Forall_empty.
Defined.

(** The sign of an amount is not checked by [processTxs]: a payment of -5 from
    account 7 to account 9 takes 5 from account 9. *)
Example negative_amount_debits_recipient :
  let tx := {| AccountNonce := 1; Type_ := SendTx; To := Some 9; Amount := -5;
               Signature := [7] |} in
  let r := @processTxs toy sampleChain (sampleBlock [tx] emptyHash emptyHash []) false
             sampleState in
  fst r = Ok 0 /\ GetBalance (snd r) 7 = 15 /\ GetBalance (snd r) 9 = 95.
Proof. vm_compute. split_and!; reflexivity. Qed.

(** ** Block admission *)

Lemma AddBlock_Ok_inv `{Collaborators} c b c' :
  AddBlock c b = (Ok tt, c') ->
  validateBlockParentHash c b = Ok tt
  /\ (IsEmpty b = false -> ValidateProposedBlock c b = Ok tt)
  /\ exists st1 c1,
       applyBlock c (State (appState c)) b false = (Ok tt, st1, c1)
       /\ c' = insertBlock (with_State c1 st1)
                 (if IsEmpty b then GenerateEmptyBlock (with_State c1 st1) else b).
Proof.
  unfold AddBlock.
  destruct (validateBlockParentHash c b) as [[] | e |]; try discriminate.
  destruct (IsEmpty b).
  - destruct (applyBlock c (State (appState c)) b false) as [[[[] | e |] st1] c1];
      try discriminate.
    intros [= <-]. split_and!; [done | discriminate | eauto].
  - destruct (ValidateProposedBlock c b) as [[] | e |]; try discriminate.
    destruct (applyBlock c (State (appState c)) b false) as [[[[] | e |] st1] c1];
      try discriminate.
    intros [= <-]. split_and!; [done | done | eauto].
Qed.

(** What a successful [applyBlock] in checking mode leaves behind. *)
Lemma applyBlock_Ok_effects `{Collaborators} c st b st' c' :
  applyBlock c st b false = (Ok tt, st', c') ->
  txpool c' = ResetTo (txpool c) b
  /\ Validators (appState c') = RefreshIfUpdated (Validators (appState c))
                                  (Transactions (body b))
  /\ version st' = version st + 1
  /\ durable st' = live st' /\ fixed st' = live st'
  /\ (IsEmpty b = true -> live st' = live st).
Proof.
  unfold applyBlock. destruct (IsEmpty b); simpl.
  - intros [= <- <-]. by split_and!.
  - destruct (applyAndValidateBlockState c b false st) as [[[] | e |] st1] eqn:Happly;
      try discriminate.
    simpl. intros [= <- <-]. apply applyAndValidateBlockState_same_base in Happly as [_ Hv].
    simpl. rewrite Hv. by split_and!.
Qed.

(** X4 (parent linkage).  A block whose height is not the height of the head
    plus 1 (in [uint64] arithmetic), or whose parent hash is not the hash of
    the head, is rejected by [AddBlock] and by [ValidateProposedBlock] before
    anything else is looked at, empty or proposed; the height is checked first,
    so a block wrong in both gets the height error; the chain, its state
    included, is left untouched. *)
Theorem X4_AddBlock_parent_linkage `{Collaborators} (c : Blockchain) (b : Block) :
  Block_Height (Head c) <> u64 (Block_Height b - 1)
  \/ Block_Hash (Head c) <> Header_ParentHash (header b) ->
  let e := if decide (Block_Height (Head c) = u64 (Block_Height b - 1))
           then ErrParentHashInvalid else ErrHeightInvalid in
  AddBlock c b = (Err e, c) /\ ValidateProposedBlock c b = Err e.
Proof.
  intros Hbad e.
  assert (Hparent : validateBlockParentHash c b = Err e).
  { unfold validateBlockParentHash. subst e. repeat case_decide; tauto. }
  unfold AddBlock, ValidateProposedBlock. by rewrite Hparent.
Qed.

(** [sampleProposal] offered a second time, to the chain that has it as head. *)
Lemma X4_AddBlock_parent_linkage_witness :
  let c := snd (@AddBlock toy sampleChain sampleProposal) in
  let e := if decide (Block_Height (Head c) = u64 (Block_Height sampleProposal - 1))
           then ErrParentHashInvalid else ErrHeightInvalid in
  @AddBlock toy c sampleProposal = (Err e, c)
  /\ @ValidateProposedBlock toy c sampleProposal = Err e.
Proof.
  apply (X4_AddBlock_parent_linkage (H := toy)
           (snd (@AddBlock toy sampleChain sampleProposal)) sampleProposal).
  left. vm_compute. discriminate.
Defined.

(** X5 (accepted root).  A proposed block that [AddBlock] accepts claims the
    root that the replay of its transactions on the canonical handle fixes. *)
Theorem X5_AddBlock_accepted_root `{Collaborators} (c c' : Blockchain) (b : Block) :
  AddBlock c b = (Ok tt, c') ->
  IsEmpty b = false ->
  replayRoot c (State (appState c)) b = Some (Block_Root b).
Proof. apply AddBlock_accepted_root. Qed.

Lemma X5_AddBlock_accepted_root_witness :
  @replayRoot toy sampleChain (State (appState sampleChain)) sampleProposal
  = Some (Block_Root sampleProposal).
Proof.
  apply (X5_AddBlock_accepted_root (H := toy) sampleChain
           (snd (@AddBlock toy sampleChain sampleProposal)) sampleProposal).
  - vm_compute. reflexivity.
  - reflexivity.
Defined.

(** X6 (all or nothing).  When the canonical handle has nothing pending, an
    [AddBlock] that returns an error leaves the whole chain as it was: head,
    ledger, pool, validators cache and account state. *)
Theorem X6_AddBlock_error_leaves_chain `{Collaborators} (c c' : Blockchain) (b : Block)
    (e : error) :
  clean (State (appState c)) ->
  AddBlock c b = (Err e, c') ->
  c' = c.
Proof. apply AddBlock_Err_unchanged. Qed.

Lemma X6_AddBlock_error_leaves_chain_witness :
  snd (@AddBlock toy sampleChain sampleForged) = sampleChain.
Proof.
  apply (X6_AddBlock_error_leaves_chain (H := toy) sampleChain _ sampleForged
           (ErrWrongStateRoot sampleRoot emptyHash)).
  - split; reflexivity.
  - vm_compute. reflexivity.
Defined.

(** X7 (nothing pending).  [AddBlock] keeps the canonical handle free of
    pending mutations: when it had none before the call and the call does not
    panic, it has none after, the block accepted (committed) or rejected
    (rolled back). *)
Theorem X7_AddBlock_keeps_handle_clean `{Collaborators} (c c' : Blockchain) (b : Block)
    (r : res unit) :
  clean (State (appState c)) ->
  AddBlock c b = (r, c') ->
  r <> Panic ->
  clean (State (appState c')).
Proof. apply AddBlock_clean. Qed.

Lemma X7_AddBlock_keeps_handle_clean_witness :
  clean (State (appState (snd (@AddBlock toy sampleChain sampleProposal)))).
Proof.
  apply (X7_AddBlock_keeps_handle_clean (H := toy) sampleChain _ sampleProposal (Ok tt)).
  - split; reflexivity.
  - vm_compute. reflexivity.
  - discriminate.
Defined.

(** X8 (own empty block).  The empty block a chain builds with
    [GenerateEmptyBlock] is accepted by [AddBlock] on that chain and is its
    head afterwards, when the canonical handle has nothing pending and the
    height of the head is a [uint64]. *)
Theorem X8_own_empty_block_accepted `{Collaborators} (c : Blockchain) :
  clean (State (appState c)) ->
  0 <= Block_Height (Head c) < 2 ^ 64 ->
  fst (AddBlock c (GenerateEmptyBlock c)) = Ok tt
  /\ Head (snd (AddBlock c (GenerateEmptyBlock c))) = GenerateEmptyBlock c.
Proof. apply AddBlock_GenerateEmptyBlock. Qed.

Lemma X8_own_empty_block_accepted_witness :
  fst (@AddBlock toy sampleChain (@GenerateEmptyBlock toy sampleChain)) = Ok tt
  /\ Head (snd (@AddBlock toy sampleChain (@GenerateEmptyBlock toy sampleChain)))
     = @GenerateEmptyBlock toy sampleChain.
Proof.
  apply (X8_own_empty_block_accepted (H := toy) sampleChain).
  - split; reflexivity.
  - vm_compute. split; [discriminate | reflexivity].
Defined.

(** X9 (empty blocks).  For a block with an empty header [AddBlock] checks the
    parent linkage and nothing else: whatever root and seed the block claims
    and whatever transactions its body carries, it is accepted; the
    transactions are not applied, the accounts are as before, the version of
    the state advances by one, and the new head claims the root of those
    accounts. *)
Theorem X9_AddBlock_empty_block `{Collaborators} (c : Blockchain) (b : Block) :
  IsEmpty b = true ->
  validateBlockParentHash c b = Ok tt ->
  exists c', AddBlock c b = (Ok tt, c')
    /\ live (State (appState c')) = live (State (appState c))
    /\ version (State (appState c')) = version (State (appState c)) + 1
    /\ IsEmpty (Head c') = true
    /\ Transactions (body (Head c')) = []
    /\ Block_Root (Head c') = StateRoot (live (State (appState c))).
Proof.
  intros Hempty Hparent. unfold AddBlock. rewrite Hparent, Hempty.
  unfold applyBlock. rewrite Hempty. simpl. eexists. split; [reflexivity |].
  by split_and!.
Qed.

(** An empty block on [sampleGenesis] that carries [sampleOverdraft], a payment
    the sender cannot afford. *)
Lemma X9_AddBlock_empty_block_witness :
  let b := {| header := header sampleEmpty;
              body := {| Transactions := [sampleOverdraft]; BlockSeed := emptyHash;
                         SeedProof := [] |} |} in
  exists c', @AddBlock toy sampleChain b = (Ok tt, c')
    /\ live (State (appState c')) = live (State (appState sampleChain))
    /\ version (State (appState c')) = version (State (appState sampleChain)) + 1
    /\ IsEmpty (Head c') = true
    /\ Transactions (body (Head c')) = []
    /\ Block_Root (Head c') = @StateRoot toy (live (State (appState sampleChain))).
Proof.
  apply (X9_AddBlock_empty_block (H := toy) sampleChain).
  - reflexivity.
  - vm_compute. reflexivity.
Defined.

(** X10 (effects of acceptance).  An accepted [AddBlock] resets the pool once,
    to the block that was passed (also when that block is empty and another
    block becomes the head), refreshes the validators cache once with the
    transactions of that block, leaves the batch of the pool alone, and commits
    the state: the version advances by exactly one and nothing is pending. *)
Theorem X10_AddBlock_accepted_effects `{Collaborators} (c c' : Blockchain) (b : Block) :
  AddBlock c b = (Ok tt, c') ->
  resets (txpool c') = b :: resets (txpool c)
  /\ pending (txpool c') = pending (txpool c)
  /\ refreshed (Validators (appState c'))
     = Transactions (body b) :: refreshed (Validators (appState c))
  /\ version (State (appState c')) = version (State (appState c)) + 1
  /\ clean (State (appState c')).
Proof.
  intros Hadd. apply AddBlock_Ok_inv in Hadd as (_ & _ & st1 & c1 & Happly & ->).
  apply applyBlock_Ok_effects in Happly as (Hpool & Hcache & Hversion & Hd & Hf & _).
  change (txpool (insertBlock (with_State c1 st1) _)) with (txpool c1).
  change (Validators (appState (insertBlock (with_State c1 st1) _)))
    with (Validators (appState c1)).
  change (State (appState (insertBlock (with_State c1 st1) _))) with st1.
  rewrite Hpool, Hcache. split_and!; try done. split; congruence.
Qed.

Lemma X10_AddBlock_accepted_effects_witness :
  let c' := snd (@AddBlock toy sampleChain sampleEmpty) in
  resets (txpool c') = sampleEmpty :: resets (txpool sampleChain)
  /\ pending (txpool c') = pending (txpool sampleChain)
  /\ refreshed (Validators (appState c'))
     = Transactions (body sampleEmpty) :: refreshed (Validators (appState sampleChain))
  /\ version (State (appState c')) = version (State (appState sampleChain)) + 1
  /\ clean (State (appState c')).
Proof.
  apply (X10_AddBlock_accepted_effects (H := toy) sampleChain
           (snd (@AddBlock toy sampleChain sampleEmpty)) sampleEmpty).
  vm_compute. reflexivity.
Defined.

(** X11 (rounds).  [Round] is the height the next block must have: a block
    that [AddBlock] accepts has the height [Round] gave before the call (as
    [uint64]), and [Round] is one more after it. *)
Theorem X11_Round_advances `{Collaborators} (c c' : Blockchain) (b : Block) :
  AddBlock c b = (Ok tt, c') ->
  u64 (Block_Height b) = Round c /\ Round c' = u64 (Round c + 1).
Proof.
  intros Hadd. apply AddBlock_Ok_inv in Hadd as (Hparent & _ & st1 & c1 & Happly & ->).
  apply validateBlockParentHash_Ok in Hparent as [Hheight _].
  apply applyBlock_Ok_inv in Happly as (Hhead & _).
  assert (Hround : u64 (Block_Height b) = Round c).
  { unfold Round. rewrite Hheight. symmetry. apply u64_pred_succ. }
  split; [exact Hround |].
  unfold Round at 1. rewrite insertBlock_Head. destruct (IsEmpty b).
  - rewrite GenerateEmptyBlock_Height.
    change (Head (with_State c1 st1)) with (Head c1). rewrite Hhead. reflexivity.
  - rewrite <- Hround. unfold u64. by rewrite Zplus_mod_idemp_l.
Qed.

Lemma X11_Round_advances_witness :
  u64 (Block_Height sampleProposal) = @Round sampleChain
  /\ @Round (snd (@AddBlock toy sampleChain sampleProposal)) = u64 (@Round sampleChain + 1).
Proof.
  apply (X11_Round_advances (H := toy) sampleChain _ sampleProposal).
  vm_compute. reflexivity.
Defined.

(** ** Validation of a proposed block *)

Lemma validateTxs_Ok `{Collaborators} (a : AppState) (txs : list Transaction) :
  validateTxs a txs = Ok tt <-> Forall (fun tx => ValidateTx a tx = None) txs.
Proof.
  induction txs as [|tx txs IH]; simpl.
  - split; [constructor | done].
  - rewrite Forall_cons. destruct (ValidateTx a tx) as [e|].
    + split; [discriminate | by intros [? _]].
    + rewrite IH. tauto.
Qed.

(** X12 (first failure).  The loop over the transactions at the end of
    [ValidateProposedBlock] stops at the first transaction the transaction
    validator refuses and returns its error: it fails with [e] exactly when
    some transaction is refused with [e] and all before it pass. *)
Theorem X12_validateTxs_first_error `{Collaborators} (a : AppState) (txs : list Transaction)
    (e : error) :
  validateTxs a txs = Err e <->
  exists pre tx post,
    txs = pre ++ tx :: post
    /\ Forall (fun tx' => ValidateTx a tx' = None) pre
    /\ ValidateTx a tx = Some e.
Proof.
  induction txs as [|tx txs IH]; simpl.
  - split; [discriminate |]. intros (pre & tx & post & Hsplit & _). by destruct pre.
  - destruct (ValidateTx a tx) as [e1|] eqn:Htx.
    + split.
      * intros [= ->]. exists [], tx, txs. by split_and!.
      * intros (pre & tx' & post & Hsplit & Hpre & Hfail). destruct pre as [|tx0 pre].
        -- simpl in Hsplit. injection Hsplit as <- _. congruence.
        -- simpl in Hsplit. injection Hsplit as <- _.
           apply Forall_cons in Hpre as [Hpass _]. congruence.
    + rewrite IH. split.
      * intros (pre & tx' & post & -> & Hpre & Hfail).
        exists (tx :: pre), tx', post. split_and!; [done | by constructor | done].
      * intros (pre & tx' & post & Hsplit & Hpre & Hfail). destruct pre as [|tx0 pre].
        -- simpl in Hsplit. injection Hsplit as <- _. congruence.
        -- simpl in Hsplit. injection Hsplit as <- ->.
           apply Forall_cons in Hpre as [_ Hpre]. eauto 10.
Qed.

Lemma ValidateProposedBlock_Ok_iff `{Collaborators} (c : Blockchain) (b : Block) :
  ValidateProposedBlock c b = Ok tt <->
  validateBlockParentHash c b = Ok tt
  /\ exists h pk,
       header b = Proposed h
       /\ UnmarshalPubkey (ProposerPubKey h) = inr pk
       /\ NewVRFVerifier pk = None
       /\ ProofToHash pk (GetSeedData c b) (SeedProof (body b)) = (Block_Seed b, None)
       /\ DeriveSha (Transactions (body b)) = TxHash h
       /\ Forall (fun tx => ValidateTx (appState c) tx = None) (Transactions (body b)).
Proof.
  unfold ValidateProposedBlock, proposedHeader.
  destruct (validateBlockParentHash c b) as [[] | e |];
    [| split; [discriminate | by intros [? _]] ..].
  destruct (header b) as [h | h].
  - destruct (UnmarshalPubkey (ProposerPubKey h)) as [e | pk] eqn:Hpk.
    { split; [discriminate |]. intros (_ & h' & pk' & [= <-] & Hpk' & _). congruence. }
    destruct (NewVRFVerifier pk) as [e|] eqn:Hver.
    { split; [discriminate |]. intros (_ & h' & pk' & [= <-] & Hpk' & Hver' & _). congruence. }
    destruct (ProofToHash pk (GetSeedData c b) (SeedProof (body b))) as [hash [e|]] eqn:Hproof.
    { split; [discriminate |].
      intros (_ & h' & pk' & [= <-] & Hpk' & _ & Hproof' & _). congruence. }
    change (HashLength =? 0) with false. rewrite orb_false_r.
    case_bool_decide as Hseed; simpl.
    + case_decide as Htx.
      { split; [discriminate |].
        intros (_ & h' & pk' & [= <-] & _ & _ & _ & Htx' & _). congruence. }
      rewrite validateTxs_Ok. split.
      * intros Hall. split; [done |]. exists h, pk. subst hash.
        split_and!; done.
      * by intros (_ & h' & pk' & _ & _ & _ & _ & _ & Hall).
    + split; [discriminate |].
      intros (_ & h' & pk' & [= <-] & Hpk' & _ & Hproof' & _). congruence.
  - split; [discriminate |]. by intros (_ & h' & pk' & ? & _).
Qed.

(** X13 (what acceptance means).  [ValidateProposedBlock] returns nil exactly
    when the block is linked to the head, has a proposed header whose key
    parses and makes a verifier, its seed is the output that the verifier
    derives without error from its proof over the seed message, its
    transaction hash is the hash of its transactions, and every transaction
    passes the transaction validator. *)
Theorem X13_ValidateProposedBlock_accepts `{Collaborators} (c : Blockchain) (b : Block) :
  ValidateProposedBlock c b = Ok tt <->
  validateBlockParentHash c b = Ok tt
  /\ exists h pk,
       header b = Proposed h
       /\ UnmarshalPubkey (ProposerPubKey h) = inr pk
       /\ NewVRFVerifier pk = None
       /\ ProofToHash pk (GetSeedData c b) (SeedProof (body b)) = (Block_Seed b, None)
       /\ DeriveSha (Transactions (body b)) = TxHash h
       /\ Forall (fun tx => ValidateTx (appState c) tx = None) (Transactions (body b)).
Proof. apply ValidateProposedBlock_Ok_iff. Qed.

(** ** Speculative application and proposals *)

Lemma applyBlock_proposing `{Collaborators} c st b :
  IsEmpty b = false ->
  applyBlock c st b true =
  match applyAndValidateBlockState c b true st with
  | (Ok _, st1) => (Ok tt, st1, c)
  | (Err e, st1) => (Err e, Reset st1, c)
  | (Panic, st1) => (Panic, st1, c)
  end.
Proof.
  intros Hne. unfold applyBlock. rewrite Hne. simpl.
  by destruct (applyAndValidateBlockState c b true st) as [[[] | e |] st1].
Qed.

(** X14 (speculation is not durable).  [applyBlock] in proposing mode never
    commits and never touches the chain: whatever the outcome, the accounts as
    last committed and the version of the handle are as before, and pool,
    validators cache, head and ledger are untouched. *)
Theorem X14_applyBlock_proposing_not_durable `{Collaborators} (c c' : Blockchain)
    (st st' : StateDB) (b : Block) (r : res unit) :
  applyBlock c st b true = (r, st', c') ->
  c' = c /\ durable st' = durable st /\ version st' = version st.
Proof.
  unfold applyBlock. destruct (IsEmpty b); simpl.
  - by intros [= <- <- <-].
  - destruct (applyAndValidateBlockState c b true st) as [[[] | e |] st1] eqn:Happly;
      apply applyAndValidateBlockState_same_base in Happly as [Hd Hv];
      intros [= <- <- <-]; by split_and!.
Qed.

Lemma X14_applyBlock_proposing_not_durable_witness :
  sampleChain = sampleChain
  /\ durable (snd (fst (@applyBlock toy sampleChain sampleState sampleProposal true)))
     = durable sampleState
  /\ version (snd (fst (@applyBlock toy sampleChain sampleState sampleProposal true)))
     = version sampleState.
Proof.
  apply (X14_applyBlock_proposing_not_durable (H := toy) sampleChain sampleChain sampleState
           _ sampleProposal (Ok tt)).
  vm_compute. reflexivity.
Defined.

(** [ProposeBlock] step by step: the batch of the pool is applied to a check
    handle under a header without root; the root the run fixes goes into the
    header, and the seed is evaluated over the block that results. *)
Lemma ProposeBlock_unfold `{Collaborators} c hash proof now :
  ProposeBlock c hash proof now =
  match applyAndValidateBlockState c (proposalTemplate c now emptyHash) true
          (NewForCheck (State (appState c))) with
  | (Ok _, st1) =>
      let t := proposalTemplate c now (StateDB_Root st1) in
      Ok (with_BlockSeed t (fst (Evaluate (vrfSigner c) (GetSeedData c t)))
                           (snd (Evaluate (vrfSigner c) (GetSeedData c t))))
  | (Err e, _) => Err e
  | (Panic, _) => Panic
  end.
Proof.
  unfold ProposeBlock.
  fold (proposalTemplate c now emptyHash).
  rewrite (applyBlock_proposing c _ (proposalTemplate c now emptyHash) eq_refl).
  destruct (applyAndValidateBlockState c (proposalTemplate c now emptyHash) true
              (NewForCheck (State (appState c)))) as [[[] | e |] st1]; try reflexivity.
  cbn [Height ParentHash Time ProposerPubKey TxHash Coinbase body header proposalTemplate].
  fold (proposalTemplate c now (StateDB_Root st1)).
  by destruct (Evaluate (vrfSigner c) (GetSeedData c (proposalTemplate c now (StateDB_Root st1)))).
Qed.

(** X15 (failed proposals).  [ProposeBlock] fails exactly when the batch of
    the pool does not apply to the accounts as last committed, and returns the
    error of the transaction at which [processTxs] stopped; it never fails on
    a root, for it takes the root of its own run. *)
Theorem X15_ProposeBlock_error `{Collaborators} (c : Blockchain) (hash : Hash)
    (proof : bytes) (now : Z) (e : error) :
  ProposeBlock c hash proof now = Err e <->
  fst (processTxs c (proposalTemplate c now emptyHash) true
         (NewForCheck (State (appState c)))) = Err e.
Proof.
  rewrite ProposeBlock_unfold, applyAndValidateBlockState_unfold.
  destruct (processTxs c (proposalTemplate c now emptyHash) true
              (NewForCheck (State (appState c)))) as [[fee | e1 |] st1]; simpl.
  - split; discriminate.
  - split; intros [= ->]; reflexivity.
  - split; discriminate.
Qed.

(** A pool that offers two transactions of one sender with consecutive nonces
    makes the proposal fail at the second. *)
Example proposal_of_consecutive_nonces_fails :
  @ProposeBlock toy
    (with_txpool sampleChain {| pending := [sampleSend; sampleGap]; resets := [] |})
    [] [] 100
  = Err (ErrInvalidTxNonce 3 2).
Proof. vm_compute. reflexivity. Qed.

(** X16 (a proposer validates its own block).  The block [ProposeBlock]
    returns is accepted by [AddBlock] on the chain that proposed it and is the
    head afterwards, provided that the canonical handle has nothing pending,
    the height of the head is a [uint64], the hash of a block depends on its
    header only (the seed is evaluated before it is written into the body),
    the key of the chain survives encoding and decoding and makes a verifier,
    the verifier derives from a proof of the signer the output the signer
    gave, and the batch of the pool passes the transaction validator. *)
Theorem X16_proposed_block_accepted `{Collaborators} (c : Blockchain) (hash : Hash)
    (proof : bytes) (now : Z) (blk : Block) :
  ProposeBlock c hash proof now = Ok blk ->
  clean (State (appState c)) ->
  0 <= Block_Height (Head c) < 2 ^ 64 ->
  (forall b1 b2, header b1 = header b2 -> Block_Hash b1 = Block_Hash b2) ->
  UnmarshalPubkey (FromECDSAPub (pubKey c)) = inr (pubKey c) ->
  NewVRFVerifier (pubKey c) = None ->
  (forall m, ProofToHash (pubKey c) m (snd (Evaluate (vrfSigner c) m))
             = (fst (Evaluate (vrfSigner c) m), None)) ->
  Forall (fun tx => ValidateTx (appState c) tx = None) (pending (txpool c)) ->
  exists c', AddBlock c blk = (Ok tt, c') /\ Head c' = blk.
Proof.
  intros Hp [Hlive _] Hrange Hhash Hkey Hver Hvrf Htxs.
  rewrite ProposeBlock_unfold in Hp.
  destruct (applyAndValidateBlockState c (proposalTemplate c now emptyHash) true
              (NewForCheck (State (appState c)))) as [[[] | e |] st1] eqn:Hspec;
    try discriminate.
  cbv zeta in Hp. injection Hp as <-.
  set (t := proposalTemplate c now (StateDB_Root st1)).
  set (blk := with_BlockSeed t _ _).
  assert (Hparent : validateBlockParentHash c blk = Ok tt).
  { unfold validateBlockParentHash.
    change (Block_Height blk) with (u64 (Block_Height (Head c) + 1)).
    change (Header_ParentHash (header blk)) with (Block_Hash (Head c)).
    rewrite u64_succ_pred. unfold u64. rewrite Z.mod_small by exact Hrange.
    repeat case_decide; congruence. }
  assert (Hmsg : GetSeedData c blk = GetSeedData c t).
  { unfold GetSeedData. by rewrite (Hhash blk t eq_refl). }
  assert (Hvalid : ValidateProposedBlock c blk = Ok tt).
  { apply ValidateProposedBlock_Ok_iff. split; [exact Hparent |].
    eexists _, (pubKey c). split_and!; [reflexivity | exact Hkey | exact Hver | | reflexivity
                                        | exact Htxs].
    rewrite Hmsg. apply Hvrf. }
  assert (Happly : exists st2,
    applyAndValidateBlockState c blk false (State (appState c)) = (Ok tt, st2)).
  { revert Hspec. rewrite !applyAndValidateBlockState_unfold. unfold processTxs.
    change (Transactions (body blk)) with (pending (txpool c)).
    change (Transactions (body (proposalTemplate c now emptyHash))) with (pending (txpool c)).
    assert (Hsame : same_accounts (NewForCheck (State (appState c))) (State (appState c)))
      by (unfold same_accounts; simpl; congruence).
    destruct (processTxs_from_same c c (pending (txpool c)) 0 _ _ Hsame) as [Hr Hs].
    destruct (processTxs_from c 0 (pending (txpool c)) (NewForCheck (State (appState c))))
      as [r1 s1].
    destruct (processTxs_from c 0 (pending (txpool c)) (State (appState c))) as [r2 s2].
    simpl in Hr, Hs. subst r2. destruct r1 as [fee | e |]; try discriminate.
    change (proposedHeader (proposalTemplate c now emptyHash)) with
      (Some {| Height := u64 (Block_Height (Head c) + 1); ParentHash := Block_Hash (Head c);
               Time := now; ProposerPubKey := FromECDSAPub (pubKey c);
               TxHash := DeriveSha (pending (txpool c)); Coinbase := coinBaseAddress c;
               Root := emptyHash |}).
    change (proposedHeader blk) with
      (Some {| Height := u64 (Block_Height (Head c) + 1); ParentHash := Block_Hash (Head c);
               Time := now; ProposerPubKey := FromECDSAPub (pubKey c);
               TxHash := DeriveSha (pending (txpool c)); Coinbase := coinBaseAddress c;
               Root := StateDB_Root st1 |}).
    cbv zeta. cbn [Coinbase negb andb].
    intros [= Hst1]. change (Block_Root blk) with (StateDB_Root st1).
    set (s1' := SetBalance (SetBalance s1 _ _) _ _) in *.
    set (s2' := SetBalance (SetBalance s2 _ _) _ _).
    assert (Hfinal : same_accounts s1' s2') by (subst s1' s2'; auto with base_db).
    assert (Hroot : StateDB_Root (Precommit s2') = StateDB_Root st1).
    { rewrite <- Hst1. unfold StateDB_Root, Precommit; cbn [fixed]. f_equal. symmetry.
      exact Hfinal. }
    rewrite bool_decide_eq_true_2 by exact Hroot. simpl. eauto. }
  destruct Happly as [st2 Happly].
  unfold AddBlock. rewrite Hparent.
  change (IsEmpty blk) with false. cbv iota. rewrite Hvalid.
  unfold applyBlock. change (IsEmpty blk) with false. cbn [negb].
  rewrite Happly. simpl. eexists. split; reflexivity.
Qed.

Lemma X16_proposed_block_accepted_witness :
  exists c', @AddBlock toy sampleChain sampleProposal = (Ok tt, c') /\ Head c' = sampleProposal.
Proof.
  apply (X16_proposed_block_accepted (H := toy) sampleChain [] [] 100 sampleProposal).
  - vm_compute. reflexivity.
  - split; reflexivity.
  - vm_compute. split; [discriminate | reflexivity].
  - intros b1 b2 Hheader. simpl. by rewrite Hheader.
  - reflexivity.
  - reflexivity.
  - intros m. simpl. by rewrite bool_decide_eq_true_2.
  - repeat constructor.
Defined.

(** ** The ledger *)

Lemma insertBlock_GetBlock `{Collaborators} c b :
  GetBlock (insertBlock c b) (Block_Hash b) = Some b.
Proof. unfold GetBlock, ReadBlock, insertBlock; simpl. apply lookup_insert_eq. Qed.

Lemma insertBlock_GetBlock_ne `{Collaborators} c b hash :
  hash <> Block_Hash b -> GetBlock (insertBlock c b) hash = GetBlock c hash.
Proof.
  intros Hne. unfold GetBlock, ReadBlock, insertBlock; simpl. by apply lookup_insert_ne.
Qed.

Lemma insertBlock_ReadCanonicalHash `{Collaborators} c b :
  ReadCanonicalHash (chain_repo (insertBlock c b)) (Block_Height b) = Block_Hash b.
Proof. unfold ReadCanonicalHash, insertBlock; simpl. by rewrite lookup_insert_eq. Qed.

Lemma insertBlock_ReadCanonicalHash_ne `{Collaborators} c b height :
  height <> Block_Height b ->
  ReadCanonicalHash (chain_repo (insertBlock c b)) height
  = ReadCanonicalHash (chain_repo c) height.
Proof.
  intros Hne. unfold ReadCanonicalHash, insertBlock; simpl. by rewrite lookup_insert_ne.
Qed.

Lemma insertBlock_GetBlockByHeight `{Collaborators} c b :
  GetBlockByHeight (insertBlock c b) (Block_Height b)
  = if decide (Block_Hash b = emptyHash) then None else Some b.
Proof.
  unfold GetBlockByHeight. rewrite insertBlock_ReadCanonicalHash.
  case_decide; [reflexivity |]. apply insertBlock_GetBlock.
Qed.

(** X17 (the ledger after acceptance).  After an accepted [AddBlock] the new
    head is found in the ledger under its hash, and under its height unless
    its hash is the zero hash, which [GetBlockByHeight] reads as no entry;
    blocks under other hashes and canonical hashes of other heights are as
    before. *)
Theorem X17_AddBlock_ledger `{Collaborators} (c c' : Blockchain) (b : Block) :
  AddBlock c b = (Ok tt, c') ->
  GetBlock c' (Block_Hash (Head c')) = Some (Head c')
  /\ GetBlockByHeight c' (Block_Height (Head c'))
     = (if decide (Block_Hash (Head c') = emptyHash) then None else Some (Head c'))
  /\ (forall hash, hash <> Block_Hash (Head c') -> GetBlock c' hash = GetBlock c hash)
  /\ (forall height, height <> Block_Height (Head c') ->
      ReadCanonicalHash (chain_repo c') height = ReadCanonicalHash (chain_repo c) height).
Proof.
  intros Hadd. apply AddBlock_Ok_inv in Hadd as (_ & _ & st1 & c1 & Happly & ->).
  apply applyBlock_Ok_inv in Happly as (_ & Hrepo & _).
  set (blk := if IsEmpty b then _ else _).
  rewrite insertBlock_Head. split_and!.
  - apply insertBlock_GetBlock.
  - apply insertBlock_GetBlockByHeight.
  - intros hash Hne. rewrite insertBlock_GetBlock_ne by done.
    unfold GetBlock. simpl. by rewrite Hrepo.
  - intros height Hne. rewrite insertBlock_ReadCanonicalHash_ne by done.
    simpl. by rewrite Hrepo.
Qed.

Lemma X17_AddBlock_ledger_witness :
  let c' := snd (@AddBlock toy sampleChain sampleProposal) in
  GetBlock c' (@Block_Hash toy (Head c')) = Some (Head c')
  /\ GetBlockByHeight c' (Block_Height (Head c'))
     = (if decide (@Block_Hash toy (Head c') = emptyHash) then None else Some (Head c'))
  /\ (forall hash, hash <> @Block_Hash toy (Head c') ->
      GetBlock c' hash = GetBlock sampleChain hash)
  /\ (forall height, height <> Block_Height (Head c') ->
      ReadCanonicalHash (chain_repo c') height
      = ReadCanonicalHash (chain_repo sampleChain) height).
Proof.
  apply (X17_AddBlock_ledger (H := toy) sampleChain
           (snd (@AddBlock toy sampleChain sampleProposal)) sampleProposal).
  vm_compute. reflexivity.
Defined.

(** ** Sortition *)

(** X18 (a selected proposer proves it).  When [GetProposerSortition] selects
    the node, the hash and proof it returns pass [ValidateProposerProof] under
    the public key of the node on every chain with the same head, provided
    that the key survives encoding and decoding and makes a verifier, and the
    verifier derives from a proof of the signer the output the signer gave.
    When the node is not selected, the hash returned is the zero hash and the
    proof is empty. *)
Theorem X18_own_sortition_validates `{Collaborators}
    (reachesThreshold : Blockchain -> Hash -> bool) (c c2 : Blockchain) :
  Head c2 = Head c ->
  UnmarshalPubkey (FromECDSAPub (pubKey c)) = inr (pubKey c) ->
  NewVRFVerifier (pubKey c) = None ->
  (forall m, ProofToHash (pubKey c) m (snd (Evaluate (vrfSigner c) m))
             = (fst (Evaluate (vrfSigner c) m), None)) ->
  match GetProposerSortition reachesThreshold c with
  | (true, hash, proof) =>
      ValidateProposerProof c2 proof hash (FromECDSAPub (pubKey c)) = Ok tt
  | (false, hash, proof) => hash = emptyHash /\ proof = []
  end.
Proof.
  intros Hhead Hkey Hver Hvrf. unfold GetProposerSortition, getSortition.
  pose proof (Hvrf (getProposerData c)) as Hown.
  destruct (Evaluate (vrfSigner c) (getProposerData c)) as [hash proof]. simpl in Hown.
  destruct (reachesThreshold c hash); [| done].
  unfold ValidateProposerProof. rewrite Hkey, Hver.
  assert (Hdata : getProposerData c2 = getProposerData c)
    by (unfold getProposerData; by rewrite Hhead).
  rewrite Hdata, Hown. case_decide; [contradiction | reflexivity].
Qed.

(** Every hash reaches the threshold; the verifying chain is the sample chain
    with an empty pool. *)
Lemma X18_own_sortition_validates_witness :
  match @GetProposerSortition toy (fun _ _ => true) sampleChain with
  | (true, hash, proof) =>
      @ValidateProposerProof toy (with_txpool sampleChain {| pending := []; resets := [] |})
        proof hash (@FromECDSAPub toy (pubKey sampleChain)) = Ok tt
  | (false, hash, proof) => hash = emptyHash /\ proof = []
  end.
Proof.
  apply (X18_own_sortition_validates (H := toy) (fun _ _ => true) sampleChain
           (with_txpool sampleChain {| pending := []; resets := [] |})).
  - reflexivity.
  - reflexivity.
  - reflexivity.
  - intros m. simpl. by rewrite bool_decide_eq_true_2.
Defined.

(** ** Genesis and start-up *)

(** X19 (genesis).  [GenerateGenesis] commits the state and builds on it a
    block of height 1 with the zero parent hash and no transactions that
    claims the root of the accounts as they stood; the block is the head and is
    in the ledger under its hash; the next round is 2, and the empty block the
    chain then builds is accepted at height 2 with the root of the genesis
    block. *)
Theorem X19_genesis `{Collaborators} (c : Blockchain) (network : Z) :
  let g := fst (GenerateGenesis c network) in
  let c1 := snd (GenerateGenesis c network) in
  Head c1 = g
  /\ Block_Height g = 1
  /\ Header_ParentHash (header g) = emptyHash
  /\ Transactions (body g) = []
  /\ Block_Root g = StateRoot (live (State (appState c)))
  /\ live (State (appState c1)) = live (State (appState c))
  /\ clean (State (appState c1))
  /\ Round c1 = 2
  /\ GetBlock c1 (Block_Hash g) = Some g
  /\ exists c2, AddBlock c1 (GenerateEmptyBlock c1) = (Ok tt, c2)
       /\ Block_Height (Head c2) = 2
       /\ Block_Root (Head c2) = Block_Root g.
Proof.
  intros g c1.
  assert (Hclean : clean (State (appState c1))) by (split; reflexivity).
  assert (Hrange : 0 <= Block_Height (Head c1) < 2 ^ 64) by (split; [discriminate | reflexivity]).
  split_and!; try reflexivity; try exact Hclean.
  - apply insertBlock_GetBlock.
  - destruct (AddBlock_GenerateEmptyBlock c1 Hclean Hrange) as [Hok Hhead].
    destruct (AddBlock c1 (GenerateEmptyBlock c1)) as [r c2]. simpl in Hok, Hhead. subst r.
    exists c2. rewrite Hhead. split_and!; reflexivity.
Qed.

Lemma insertBlock_GetHead `{Collaborators} (Header_Hash : Header -> Hash) c b :
  Header_Hash (header b) = Block_Hash b ->
  GetHead Header_Hash (insertBlock c b) = Some b.
Proof.
  intros Hhash. unfold GetHead, ReadHead. rewrite insertBlock_repo_head, Hhash.
  apply insertBlock_GetBlock.
Qed.

(** X20 (restart).  On a chain whose ledger is as [insertBlock] of a block
    left it, whatever its head field holds, [InitializeChain] with a key that
    makes a signer sets the head to that block, installs the signer, the
    public key and the coinbase address of the key, and leaves ledger, state
    and pool alone; no genesis block is generated.  The hash of the header of
    the block is taken to be the hash of the block.  With a key that makes no
    signer, it returns the error of the signer and leaves the chain alone. *)
Theorem X20_restart_recovers_head `{Collaborators} (Header_Hash : Header -> Hash)
    (NewVRFSigner : Z -> error + Z) (Public : Z -> ecdsaPublicKey)
    (PubkeyToAddress : ecdsaPublicKey -> Address)
    (c c0 : Blockchain) (b : Block) (secretKey : Z) :
  Header_Hash (header b) = Block_Hash b ->
  chain_repo c0 = chain_repo (insertBlock c b) ->
  match NewVRFSigner secretKey with
  | inr signer =>
      exists c',
        InitializeChain Header_Hash NewVRFSigner Public PubkeyToAddress c0 secretKey
        = (Ok tt, c')
        /\ Head c' = b
        /\ chain_repo c' = chain_repo c0 /\ appState c' = appState c0
        /\ txpool c' = txpool c0
        /\ vrfSigner c' = signer /\ pubKey c' = Public secretKey
        /\ coinBaseAddress c' = PubkeyToAddress (Public secretKey)
  | inl err =>
      InitializeChain Header_Hash NewVRFSigner Public PubkeyToAddress c0 secretKey
      = (Err err, c0)
  end.
Proof.
  intros Hhash Hrepo. unfold InitializeChain.
  destruct (NewVRFSigner secretKey) as [err | signer]; [reflexivity |].
  assert (Hhead : GetHead Header_Hash
                    (with_keys c0 signer (Public secretKey)
                       (PubkeyToAddress (Public secretKey))) = Some b).
  { pose proof (insertBlock_GetHead Header_Hash c b Hhash) as Hget.
    unfold GetHead in *. simpl. by rewrite Hrepo. }
  rewrite Hhead. eexists. split; [reflexivity |]. by split_and!.
Qed.

(** The sample chain after [sampleProposal], restarted with the head field it
    had before. *)
Lemma X20_restart_recovers_head_witness :
  let c0 := with_repo sampleChain
              (chain_repo (@insertBlock toy sampleChain sampleProposal)) in
  exists c',
    @InitializeChain toy (fun h => toyDigest 4 (toyHeaderBytes h)) (fun sk => inr sk)
      (fun sk => {| X := sk; Y := sk + 1 |}) X c0 11
    = (Ok tt, c')
    /\ Head c' = sampleProposal
    /\ chain_repo c' = chain_repo c0 /\ appState c' = appState c0
    /\ txpool c' = txpool c0
    /\ vrfSigner c' = 11 /\ pubKey c' = {| X := 11; Y := 11 + 1 |}
    /\ coinBaseAddress c' = X {| X := 11; Y := 11 + 1 |}.
Proof.
  exact (X20_restart_recovers_head (H := toy) (fun h => toyDigest 4 (toyHeaderBytes h))
           (fun sk => inr sk) (fun sk => {| X := sk; Y := sk + 1 |}) X sampleChain
           (with_repo sampleChain (chain_repo (@insertBlock toy sampleChain sampleProposal)))
           sampleProposal 11 eq_refl eq_refl).
Defined.

(** A ledger whose head entry names a block that it does not hold: start-up
    finds no head and generates a genesis block over the ledger. *)
Example start_with_dangling_head :
  let c0 := with_repo sampleChain
              {| blocks := ∅; head := Some (header sampleProposal); canonical := ∅ |} in
  Block_Height
    (Head (snd (@InitializeChain toy (fun h => toyDigest 4 (toyHeaderBytes h))
                  (fun sk => inr sk) (fun sk => {| X := sk; Y := sk + 1 |}) X c0 11)))
  = 1.
Proof. vm_compute. reflexivity. Qed.
